(** * Outlook Mail MCP server: token cache and Graph request dispatcher

    A shallow embedding of [get_access_token] and [make_graph_request]
    from [outlook_server.py].  The two coroutines mutate two module-level
    globals, read the wall clock, talk to the network through [httpx] and
    raise Python exceptions.  They are modelled in a state-and-exception
    monad over a [World] that holds the two globals together with a log of
    every HTTP request sent; the clock and the network are an environment
    [Env] that answers clock readings and requests. *)

From Stdlib Require Import ZArith String Ascii List Bool Lia DecimalString.
Import ListNotations.

Local Open Scope string_scope.
Local Open Scope Z_scope.

Set Warnings "-register-all".

(** ** Python values *)

(** Decoded JSON documents.  Numbers are integers: the fractional part of
    a JSON number plays no role in the code modelled here. *)
Inductive JSON : Type :=
| JNull
| JBool (b : bool)
| JNum (n : Z)
| JStr (s : string)
| JArr (items : list JSON)
| JObj (fields : list (string * JSON)).

(** A [dict] with string keys, in insertion order. *)
Definition dict (V : Type) : Type := list (string * V).

(** [d.get(key)]: the binding of [key] (a dict holds a key once). *)
Fixpoint lookup {V : Type} (key : string) (d : dict V) : option V :=
  match d with
  | [] => None
  | (k, v) :: rest => if String.eqb k key then Some v else lookup key rest
  end.

(** [str(n)] for an integer. *)
Definition str_of_int (n : Z) : string := NilZero.string_of_int (Z.to_int n).

(** A Python [str] is held as its UTF-8 bytes.  [ascii_only s] says that
    [s] is made of ASCII characters alone; on such a string the byte-wise
    functions below ([upper], [lower], [strip]) are what Python computes.
    On other strings they are not: [str.upper] also maps some non-ASCII
    letters (U+017F among them) to ASCII ones and [str.strip] also removes
    Unicode white space, so a statement that depends on one of them is
    made for ASCII arguments. *)
Definition ascii_only (s : string) : bool :=
  forallb (fun c => Nat.ltb (nat_of_ascii c) 128) (list_ascii_of_string s).

(** [str.upper] on ASCII text: the letters a-z are mapped to A-Z and every
    other byte is kept. *)
Definition upper_ascii (c : ascii) : ascii :=
  let n := nat_of_ascii c in
  if (Nat.leb 97 n && Nat.leb n 122)%bool then ascii_of_nat (n - 32) else c.

Fixpoint upper (s : string) : string :=
  match s with
  | EmptyString => EmptyString
  | String c rest => String (upper_ascii c) (upper rest)
  end.

(** ** HTTP as seen through httpx *)

(** The client method that is called. *)
Inductive Verb : Type := GET | POST | PATCH | DELETE.

(** The keyword arguments of one [client.<verb>(url, ...)] call.  An
    argument the call does not pass is [None], which is also what httpx
    takes as its default. *)
Record Request : Type := mkRequest {
  verb : Verb;
  url : string;
  headers : dict string;          (* headers= *)
  form : option (dict string);    (* data=, sent form-encoded *)
  json_body : option JSON;        (* json= *)
  params : option (dict string);  (* params= *)
  timeout : Z                     (* timeout= *)
}.

(** What the code reads from an [httpx.Response]: [status_code], [text],
    and the value [response.json()] decodes from the body ([None] when
    decoding raises). *)
Record Response : Type := mkResponse {
  status_code : Z;
  text : string;
  json : option JSON
}.

(** Exceptions that can leave the two coroutines. *)
Inductive exn : Type :=
| Exception (msg : string)
| ValueError (msg : string)
| KeyError (key : string)
| TypeError
| JSONDecodeError
| HTTPStatusError (response : Response)
| TransportError (msg : string)    (* timeouts, connection failures *)
| OverflowError.                   (* int too large to convert to float *)

(** The network either answers or fails below HTTP. *)
Inductive Answer : Type :=
| Reply (response : Response)
| Broken (msg : string).

(** ** Environment and state *)

(** Everything outside the process: the three credentials read from the
    environment at import time, the wall clock ([timestamp k] is the value
    of the k-th call of [datetime.now().timestamp()], in whole seconds:
    the float is modelled as an integer), and the network, which answers
    a request knowing every request sent before. *)
Record Env : Type := mkEnv {
  TENANT_ID : string;
  CLIENT_ID : string;
  CLIENT_SECRET : string;
  timestamp : nat -> Z;
  transport : list Request -> Request -> Answer
}.

(** The module globals [_access_token] and [_token_expiry] ([None] is
    Python's [None]), the number of clock readings made so far, and the
    requests sent so far, oldest first. *)
Record World : Type := mkWorld {
  _access_token : option string;
  _token_expiry : option Z;
  clock_reads : nat;
  wire : list Request
}.

(** The state when the module has just been imported. *)
Definition initial : World :=
  {| _access_token := None; _token_expiry := None; clock_reads := 0; wire := [] |}.

(** The world after one more clock reading. *)
Definition tick (w : World) : World :=
  {| _access_token := _access_token w; _token_expiry := _token_expiry w;
     clock_reads := S (clock_reads w); wire := wire w |}.

(** The world after request [r] has gone out. *)
Definition logged (r : Request) (w : World) : World :=
  {| _access_token := _access_token w; _token_expiry := _token_expiry w;
     clock_reads := clock_reads w; wire := wire w ++ [r] |}.

(** ** The monad of a Python coroutine body *)

Inductive outcome (A : Type) : Type :=
| Return (a : A)
| Raise (e : exn).
Arguments Return {A} a.
Arguments Raise {A} e.

(** A raised exception keeps the state reached so far: assignments to
    globals made before the [raise] stay. *)
Definition M (A : Type) : Type := World -> outcome A * World.

Definition ret {A : Type} (a : A) : M A := fun w => (Return a, w).

Definition raise {A : Type} (e : exn) : M A := fun w => (Raise e, w).

Definition bind {A B : Type} (c : M A) (k : A -> M B) : M B :=
  fun w =>
    match c w with
    | (Return a, w') => k a w'
    | (Raise e, w') => (Raise e, w')
    end.

(** [try: c except ...: handler] *)
Definition try_except {A : Type} (c : M A) (handler : exn -> M A) : M A :=
  fun w =>
    match c w with
    | (Return a, w') => (Return a, w')
    | (Raise e, w') => handler e w'
    end.

Declare Scope py_scope.
Delimit Scope py_scope with py.
Notation "x <- c ;; k" := (bind c (fun x => k))
  (at level 61, c at next level, right associativity) : py_scope.
Notation "c ;; k" := (bind c (fun _ => k))
  (at level 61, right associativity) : py_scope.
Local Open Scope py_scope.

Definition load_access_token : M (option string) :=
  fun w => (Return (_access_token w), w).

Definition load_token_expiry : M (option Z) :=
  fun w => (Return (_token_expiry w), w).

Definition store_access_token (v : string) : M unit :=
  fun w => (Return tt,
            {| _access_token := Some v; _token_expiry := _token_expiry w;
               clock_reads := clock_reads w; wire := wire w |}).

Definition store_token_expiry (v : Z) : M unit :=
  fun w => (Return tt,
            {| _access_token := _access_token w; _token_expiry := Some v;
               clock_reads := clock_reads w; wire := wire w |}).

(** [float(n)] exists for the integer [n]: rounded to 53 bits it stays
    below 2^1024.  Beyond that, adding [n] to a float raises
    [OverflowError]. *)
Definition fits_float (n : Z) : bool := Z.abs n <? 2 ^ 1024 - 2 ^ 970.
Arguments fits_float : simpl never.

(** ** The two coroutines *)

Section Server.

Variable env : Env.

(** [datetime.now().timestamp()] *)
Definition now : M Z :=
  fun w => (Return (timestamp env (clock_reads w)), tick w).

(** One awaited [client.<verb>(...)] call: the request is logged, then the
    network answers or the call raises a transport error. *)
Definition send (r : Request) : M Response :=
  fun w =>
    match transport env (wire w) r with
    | Reply response => (Return response, logged r w)
    | Broken msg => (Raise (TransportError msg), logged r w)
    end.

(** [response.is_success]: a 2xx status. *)
Definition is_success (r : Response) : bool :=
  (200 <=? status_code r) && (status_code r <=? 299).

(** [response.raise_for_status()] *)
Definition raise_for_status (r : Response) : M unit :=
  if is_success r then ret tt else raise (HTTPStatusError r).

(** [response.json()] *)
Definition response_json (r : Response) : M JSON :=
  match json r with
  | Some v => ret v
  | None => raise JSONDecodeError
  end.

(** [token_data["access_token"]].  Subscripting anything but a [dict] by a
    string is a [TypeError], a missing key a [KeyError].  The coroutine is
    annotated [-> str] and the cache holds strings: for a document whose
    [access_token] is not a string the code stores that value all the
    same, and the model stops with a [TypeError] instead.  Statements that
    reach over such a document assume [string_tokens]. *)
Definition getitem_str (v : JSON) (key : string) : M string :=
  match v with
  | JObj fields =>
      match lookup key fields with
      | Some (JStr s) => ret s
      | Some _ => raise TypeError
      | None => raise (KeyError key)
      end
  | _ => raise TypeError
  end.

(** [token_data.get(key, default)] on the decoded object. *)
Definition get_default (v : JSON) (key : string) (default : JSON) : M JSON :=
  match v with
  | JObj fields =>
      match lookup key fields with
      | Some x => ret x
      | None => ret default
      end
  | _ => raise TypeError
  end.

(** The right operand of [float + expires_in]: an integer that converts
    to a float, or a [bool], which Python counts as 0 or 1.  An integer
    that does not convert is an [OverflowError], anything else a
    [TypeError].  The sum itself is taken in exact integers: it is the
    float sum of line 67 as long as the operands and the result are
    integers below 2^53 in magnitude, and statements about its value are
    made within that range. *)
Definition as_number (v : JSON) : M Z :=
  match v with
  | JNum n => if fits_float n then ret n else raise OverflowError
  | JBool b => ret (Z.b2z b)
  | _ => raise TypeError
  end.

(** Truth value of the two globals: [None], the empty string and zero are
    false. *)
Definition truthy_str (v : option string) : bool :=
  match v with
  | Some s => negb (String.eqb s EmptyString)
  | None => false
  end.

Definition truthy_num (v : option Z) : bool :=
  match v with
  | Some z => negb (z =? 0)
  | None => false
  end.

(** The test of line 45,
    [_access_token and _token_expiry and datetime.now().timestamp() < _token_expiry],
    with its short circuit: the clock is read only when both globals are
    true.  The result is the cached token when the test holds. *)
Definition cached_token : M (option string) :=
  tok <- load_access_token ;;
  if truthy_str tok then
    expiry <- load_token_expiry ;;
    if truthy_num expiry then
      t <- now ;;
      match tok, expiry with
      | Some s, Some e => ret (if t <? e then Some s else None)
      | _, _ => ret None
      end
    else ret None
  else ret None.

Definition missing_credentials : bool :=
  String.eqb (TENANT_ID env) EmptyString
  || String.eqb (CLIENT_ID env) EmptyString
  || String.eqb (CLIENT_SECRET env) EmptyString.

Definition token_url : string :=
  "https://login.microsoftonline.com/" ++ TENANT_ID env ++ "/oauth2/v2.0/token".

(** [client.post(token_url, data=data, timeout=30)] *)
Definition token_request : Request :=
  {| verb := POST;
     url := token_url;
     headers := [];
     form := Some [("client_id", CLIENT_ID env);
                   ("client_secret", CLIENT_SECRET env);
                   ("scope", "https://graph.microsoft.com/.default");
                   ("grant_type", "client_credentials")];
     json_body := None;
     params := None;
     timeout := 30 |}.

(** Lines 48 to 69: the credential check and the token exchange. *)
Definition exchange_token : M string :=
  if missing_credentials then
    raise (Exception
      "Missing required credentials: TENANT_ID, CLIENT_ID, CLIENT_SECRET")
  else
    response <- send token_request ;;
    raise_for_status response ;;
    token_data <- response_json response ;;
    tok <- getitem_str token_data "access_token" ;;
    store_access_token tok ;;
    expires_in <- get_default token_data "expires_in" (JNum 3600) ;;
    t <- now ;;
    lifetime <- as_number expires_in ;;
    store_token_expiry (t + lifetime - 60) ;;
    ret tok.

Definition get_access_token : M string :=
  hit <- cached_token ;;
  match hit with
  | Some tok => ret tok
  | None => exchange_token
  end.

Definition GRAPH_API_VERSION : string := "v1.0".

Definition GRAPH_BASE_URL : string :=
  "https://graph.microsoft.com/" ++ GRAPH_API_VERSION.

(** The request each branch of the dispatcher sends. *)
Definition graph_get (u : string) (h : dict string) (p : option (dict string)) : Request :=
  {| verb := GET; url := u; headers := h; form := None; json_body := None;
     params := p; timeout := 30 |}.

Definition graph_post (u : string) (h : dict string) (d : option JSON)
    (p : option (dict string)) : Request :=
  {| verb := POST; url := u; headers := h; form := None; json_body := d;
     params := p; timeout := 30 |}.

Definition graph_patch (u : string) (h : dict string) (d : option JSON)
    (p : option (dict string)) : Request :=
  {| verb := PATCH; url := u; headers := h; form := None; json_body := d;
     params := p; timeout := 30 |}.

Definition graph_delete (u : string) (h : dict string) : Request :=
  {| verb := DELETE; url := u; headers := h; form := None; json_body := None;
     params := None; timeout := 30 |}.

Definition graph_headers (token : string) : dict string :=
  [("Authorization", "Bearer " ++ token); ("Content-Type", "application/json")].

(** The body of the [try] block. *)
Definition dispatch (method u : string) (h : dict string) (data : option JSON)
    (query : option (dict string)) : M JSON :=
  response <-
    (if String.eqb (upper method) "GET" then send (graph_get u h query)
     else if String.eqb (upper method) "POST" then send (graph_post u h data query)
     else if String.eqb (upper method) "PATCH" then send (graph_patch u h data query)
     else if String.eqb (upper method) "DELETE" then send (graph_delete u h)
     else raise (ValueError ("Unsupported method: " ++ method))) ;;
  raise_for_status response ;;
  if negb (String.eqb (text response) EmptyString) then response_json response
  else ret (JObj []).

(** The [except httpx.HTTPStatusError as e] clause; any other exception
    passes through. *)
Definition graph_error (e : exn) : M JSON :=
  match e with
  | HTTPStatusError response =>
      raise (Exception ("Graph API error " ++ str_of_int (status_code response)
                        ++ ": " ++ text response))
  | _ => raise e
  end.

Definition make_graph_request (method endpoint : string) (data : option JSON)
    (query : option (dict string)) : M JSON :=
  token <- get_access_token ;;
  let u := GRAPH_BASE_URL ++ endpoint in
  let h := graph_headers token in
  try_except (dispatch method u h data query) graph_error.

(** The methods the dispatcher has a branch for. *)
Definition supported (method : string) : bool :=
  existsb (String.eqb (upper method)) ["GET"; "POST"; "PATCH"; "DELETE"].

End Server.

(** ** Vocabulary of the statements *)

(** The request the dispatcher sends for [method], when it has a branch
    for it. *)
Definition issued (method u : string) (h : dict string) (data : option JSON)
    (query : option (dict string)) : option Request :=
  if String.eqb (upper method) "GET" then Some (graph_get u h query)
  else if String.eqb (upper method) "POST" then Some (graph_post u h data query)
  else if String.eqb (upper method) "PATCH" then Some (graph_patch u h data query)
  else if String.eqb (upper method) "DELETE" then Some (graph_delete u h)
  else None.

(** The lifetime a decoded token document grants: its [expires_in], 3600
    when the key is absent; [None] when the value is not a number. *)
Definition granted (fields : dict JSON) : option Z :=
  match lookup "expires_in" fields with
  | None => Some 3600
  | Some (JNum n) => Some n
  | Some (JBool b) => Some (Z.b2z b)
  | Some _ => None
  end.

(** What [response.json()] gives the caller. *)
Definition decoded (r : Response) : outcome JSON :=
  match json r with
  | Some v => Return v
  | None => Raise JSONDecodeError
  end.

(** The states the process can be in: the state after import, and the
    state after any call of either coroutine from such a state. *)
Inductive reachable (env : Env) : World -> Prop :=
| reach_initial : reachable env initial
| reach_token w :
    reachable env w -> reachable env (snd (get_access_token env w))
| reach_request w method endpoint data query :
    reachable env w ->
    reachable env (snd (make_graph_request env method endpoint data query w)).

(** ** Scenarios *)

(** A token document with the given token and lifetime. *)
Definition token_reply (tok : string) (lifetime : Z) : Response :=
  {| status_code := 200;
     text := "(token document)";
     json := Some (JObj [("access_token", JStr tok); ("expires_in", JNum lifetime)]) |}.

(** A tenant with all three credentials, a clock, an identity provider
    that always answers [idp] and a mailbox API that always answers
    [mailbox].  The token exchange is the only form-encoded request. *)
Definition provider (idp : Response) (clock : nat -> Z) (mailbox : Response) : Env :=
  {| TENANT_ID := "contoso";
     CLIENT_ID := "mail-app";
     CLIENT_SECRET := "s3cret";
     timestamp := clock;
     transport := fun _ r =>
       match form r with
       | Some _ => Reply idp
       | None => Reply mailbox
       end |}.

(** The same with a provider that grants [tok] for [lifetime] seconds. *)
Definition tenant (tok : string) (lifetime : Z) (clock : nat -> Z)
    (mailbox : Response) : Env :=
  provider (token_reply tok lifetime) clock mailbox.

(** A process started without [CLIENT_SECRET]. *)
Definition unconfigured (clock : nat -> Z) (mailbox : Response) : Env :=
  {| TENANT_ID := "contoso";
     CLIENT_ID := "mail-app";
     CLIENT_SECRET := EmptyString;
     timestamp := clock;
     transport := fun _ _ => Reply mailbox |}.

Definition invalid_client : Response :=
  {| status_code := 401; text := "invalid_client"; json := None |}.

Definition inbox : Response :=
  {| status_code := 200; text := "[1, 2]"; json := Some (JArr [JNum 1; JNum 2]) |}.

Definition no_content : Response :=
  {| status_code := 204; text := EmptyString; json := None |}.

Definition access_denied : Response :=
  {| status_code := 403; text := "Access denied"; json := None |}.

(** A wall clock that starts at 1000 and advances one second a reading. *)
Definition ticking : nat -> Z := fun k => 1000 + Z.of_nat k.

(** A state with a cached token. *)
Definition holding (tok : string) (expiry : Z) : World :=
  {| _access_token := Some tok; _token_expiry := Some expiry;
     clock_reads := 0; wire := [] |}.

(** ** The claims that the code does not meet, as they are worded *)

(** An unsupported method is refused with a [ValueError] and nothing has
    gone out on the network. *)
Definition rejected_offline (env : Env) (w : World) (method endpoint : string)
    (data : option JSON) (query : option (dict string)) : Prop :=
  exists msg w',
    make_graph_request env method endpoint data query w = (Raise (ValueError msg), w')
    /\ wire w' = wire w.


(** A cached token whose expiry is ahead of the clock is returned as it
    is, with no request sent and the cache untouched. *)
Definition served_from_cache (env : Env) (w : World) : Prop :=
  forall tok e,
    _access_token w = Some tok ->
    _token_expiry w = Some e ->
    timestamp env (clock_reads w) < e ->
    exists w',
      get_access_token env w = (Return tok, w')
      /\ wire w' = wire w
      /\ _access_token w' = Some tok
      /\ _token_expiry w' = Some e.


(** The dispatcher cannot tell [method] from [method.upper()]. *)
Definition case_blind (env : Env) (w : World) (method endpoint : string)
    (data : option JSON) (query : option (dict string)) : Prop :=
  make_graph_request env method endpoint data query w
  = make_graph_request env (upper method) endpoint data query w.

(** ** More Python strings *)

(** The line feed of an f-string's [\n]. *)
Definition nl : string := String (ascii_of_nat 10) EmptyString.

(** [c.isspace()] on ASCII: tab to carriage return, the four separators
    28 to 31, and the space.  Unicode white space outside ASCII (U+00A0
    and the like) is not recognised: see [ascii_only]. *)
Definition is_space (c : ascii) : bool :=
  let n := nat_of_ascii c in
  (Nat.leb 9 n && Nat.leb n 13) || (Nat.leb 28 n && Nat.leb n 31) || Nat.eqb n 32.

Fixpoint lstrip (s : string) : string :=
  match s with
  | EmptyString => EmptyString
  | String c rest => if is_space c then lstrip rest else s
  end.

Fixpoint rstrip (s : string) : string :=
  match s with
  | EmptyString => EmptyString
  | String c rest =>
      match rstrip rest with
      | EmptyString => if is_space c then EmptyString else String c EmptyString
      | kept => String c kept
      end
  end.

(** [s.strip()] on ASCII text. *)
Definition strip (s : string) : string := rstrip (lstrip s).

(** [str.lower] on ASCII text: A-Z go to a-z, every other byte is kept
    (non-ASCII capitals are not lower-cased: see [ascii_only]). *)
Definition lower_ascii (c : ascii) : ascii :=
  let n := nat_of_ascii c in
  if (Nat.leb 65 n && Nat.leb n 90)%bool then ascii_of_nat (n + 32) else c.

Fixpoint lower (s : string) : string :=
  match s with
  | EmptyString => EmptyString
  | String c rest => String (lower_ascii c) (lower rest)
  end.

(** [s.split(sep)] for a one-character separator: the pieces between the
    separators, empty pieces included; never the empty list. *)
Fixpoint split (sep : ascii) (s : string) : list string :=
  match s with
  | EmptyString => [EmptyString]
  | String c rest =>
      if Ascii.eqb c sep then EmptyString :: split sep rest
      else
        match split sep rest with
        | [] => [String c EmptyString]
        | piece :: pieces => String c piece :: pieces
        end
  end.

(** [d[key] = v]: the binding is replaced where the key is, added at the
    end otherwise. *)
Fixpoint setitem {V : Type} (key : string) (v : V) (d : dict V) : dict V :=
  match d with
  | [] => [(key, v)]
  | (k, x) :: rest =>
      if String.eqb k key then (k, v) :: rest else (k, x) :: setitem key v rest
  end.

(** [not s.strip()] *)
Definition blank (s : string) : bool := String.eqb (strip s) EmptyString.

(** ** The tool handlers that do not read the answer *)

(** The comprehension every handler with recipients uses:
    [[{"emailAddress": {"address": addr.strip()}}
      for addr in value.split(",") if addr.strip()]]. *)
Definition recipient (addr : string) : JSON :=
  JObj [("emailAddress", JObj [("address", JStr (strip addr))])].

Definition recipients (value : string) : list JSON :=
  map recipient (filter (fun addr => negb (blank addr)) (split "," value)).

(** [if value.strip(): message[key] = [...]] *)
Definition add_recipients (key value : string) (message : dict JSON) : dict JSON :=
  if blank value then message else setitem key (JArr (recipients value)) message.

(** [str(e)].  An exception built from a message prints that message; the
    texts that httpx, json and the interpreter compose for their own
    exceptions are [library_text]. *)
Definition str_exn (library_text : exn -> string) (e : exn) : string :=
  match e with
  | Exception msg => msg
  | ValueError msg => msg
  | _ => library_text e
  end.

Section Tools.

Variable env : Env.
Variable library_text : exn -> string.

(** The frame of every handler:
    [try: body except Exception as e: logger.error(...); return f"❌ Error: {str(e)}"].
    Every exception of the model is an [Exception]; a [BaseException]
    that is none, such as the [asyncio.CancelledError] of a cancelled
    await, is not modelled and would pass through the handler.  What the
    logger writes to standard error is not part of the state. *)
Definition reporting (body : M string) : M string :=
  try_except body (fun e => ret ("❌ Error: " ++ str_exn library_text e)).

Definition send_email
    (subject body body_type to_recipients cc_recipients bcc_recipients
       importance save_to_sent : string) : M string :=
  reporting
    (if blank to_recipients then
       ret "❌ Error: At least one recipient is required"
     else if blank subject && blank body then
       ret "❌ Error: Subject or body is required"
     else
       let message :=
         [("subject", JStr subject);
          ("importance", JStr importance);
          ("saveToSentItems", JBool (String.eqb (lower save_to_sent) "true"));
          ("body", JObj [("contentType", JStr (lower body_type));
                         ("content", JStr body)])] in
       let message := add_recipients "toRecipients" to_recipients message in
       let message := add_recipients "ccRecipients" cc_recipients message in
       let message := add_recipients "bccRecipients" bcc_recipients message in
       _ <- make_graph_request env "POST" "/me/sendMail"
              (Some (JObj [("message", JObj message)])) None ;;
       ret ("✅ Email sent successfully!" ++ nl ++ nl ++ "📝 Subject: " ++ subject
            ++ nl ++ "📤 To: " ++ to_recipients)).

Definition send_draft (message_id : string) : M string :=
  reporting
    (if blank message_id then ret "❌ Error: message_id is required"
     else
       _ <- make_graph_request env "POST" ("/me/messages/" ++ message_id ++ "/send")
              (Some (JObj [])) None ;;
       ret ("✅ Draft sent successfully!" ++ nl ++ nl ++ "📧 Message ID: " ++ message_id)).

Definition forward_email (message_id to_recipients comment : string) : M string :=
  reporting
    (if blank message_id then ret "❌ Error: message_id is required"
     else if blank to_recipients then ret "❌ Error: to_recipients is required"
     else
       let forward_data := [("toRecipients", JArr (recipients to_recipients))] in
       let forward_data :=
         if blank comment then forward_data
         else setitem "comment" (JStr comment) forward_data in
       _ <- make_graph_request env "POST" ("/me/messages/" ++ message_id ++ "/forward")
              (Some (JObj forward_data)) None ;;
       ret ("✅ Email forwarded successfully!" ++ nl ++ nl
            ++ "📧 Original Message ID: " ++ message_id ++ nl
            ++ "📤 Forwarded to: " ++ to_recipients)).

Definition reply_email (message_id body reply_all : string) : M string :=
  reporting
    (if blank message_id then ret "❌ Error: message_id is required"
     else
       let endpoint := "/me/messages/" ++ message_id ++ "/reply" in
       let reply_data : dict JSON := [] in
       let reply_data :=
         if blank body then reply_data
         else setitem "message"
                (JObj [("body", JObj [("contentType", JStr "text");
                                      ("content", JStr body)])])
                reply_data in
       let endpoint :=
         if String.eqb (lower reply_all) "true"
         then "/me/messages/" ++ message_id ++ "/replyAll" else endpoint in
       _ <- make_graph_request env "POST" endpoint (Some (JObj reply_data)) None ;;
       let reply_type :=
         if String.eqb (lower reply_all) "true" then "reply-all" else "reply" in
       ret ("✅ Email " ++ reply_type ++ " sent successfully!" ++ nl ++ nl
            ++ "📧 Original Message ID: " ++ message_id)).

Definition delete_email (message_id : string) : M string :=
  reporting
    (if blank message_id then ret "❌ Error: message_id is required"
     else
       _ <- make_graph_request env "DELETE" ("/me/messages/" ++ message_id) None None ;;
       ret ("✅ Email deleted successfully!" ++ nl ++ nl
            ++ "📧 Message ID: " ++ message_id)).

Definition permanent_delete_email (message_id : string) : M string :=
  reporting
    (if blank message_id then ret "❌ Error: message_id is required"
     else
       _ <- make_graph_request env "DELETE"
              ("/me/messages/" ++ message_id ++ "/permanentDelete") None None ;;
       ret ("✅ Email permanently deleted!" ++ nl ++ nl
            ++ "📧 Message ID: " ++ message_id)).

Definition mark_as_read (message_id : string) : M string :=
  reporting
    (if blank message_id then ret "❌ Error: message_id is required"
     else
       let update_data := [("isRead", JBool true)] in
       _ <- make_graph_request env "PATCH" ("/me/messages/" ++ message_id)
              (Some (JObj update_data)) None ;;
       ret ("✅ Email marked as read!" ++ nl ++ nl ++ "📧 Message ID: " ++ message_id)).

Definition mark_as_unread (message_id : string) : M string :=
  reporting
    (if blank message_id then ret "❌ Error: message_id is required"
     else
       let update_data := [("isRead", JBool false)] in
       _ <- make_graph_request env "PATCH" ("/me/messages/" ++ message_id)
              (Some (JObj update_data)) None ;;
       ret ("✅ Email marked as unread!" ++ nl ++ nl ++ "📧 Message ID: " ++ message_id)).

End Tools.

(** ** More vocabulary and scenarios *)

(** [l] is [l'] with requests added at the end. *)
Definition extends (l' l : list Request) : Prop :=
  exists added, l' = (l ++ added)%list.

(** No white space at either end. *)
Definition trimmed (s : string) : Prop := lstrip s = s /\ rstrip s = s.

(** The byte [c] occurs in [s]. *)
Fixpoint occurs (c : ascii) (s : string) : bool :=
  match s with
  | EmptyString => false
  | String d rest => Ascii.eqb d c || occurs c rest
  end.

(** Every token the network hands out is a string: in each answer whose
    body decodes to an object, [access_token], when present, is a
    string. *)
Definition string_tokens (env : Env) : Prop :=
  forall log r resp fields v,
    transport env log r = Reply resp ->
    json resp = Some (JObj fields) ->
    lookup "access_token" fields = Some v ->
    exists s, v = JStr s.


(** A token document whose [expires_in] is a string. *)
Definition quoted_lifetime (tok : string) : Response :=
  {| status_code := 200;
     text := "(token document)";
     json := Some (JObj [("access_token", JStr tok); ("expires_in", JStr "3600")]) |}.

(** A network on which nothing gets through. *)
Definition offline (clock : nat -> Z) : Env :=
  {| TENANT_ID := "contoso";
     CLIENT_ID := "mail-app";
     CLIENT_SECRET := "s3cret";
     timestamp := clock;
     transport := fun _ _ => Broken "timed out" |}.

(** A mailbox API that cannot be reached behind a working provider. *)
Definition unreachable_mailbox (tok : string) (clock : nat -> Z) : Env :=
  {| TENANT_ID := "contoso";
     CLIENT_ID := "mail-app";
     CLIENT_SECRET := "s3cret";
     timestamp := clock;
     transport := fun _ r =>
       match form r with
       | Some _ => Reply (token_reply tok 3600)
       | None => Broken "timed out"
       end |}.

(** The texts of library exceptions, left unspecified. *)
Definition terse : exn -> string := fun _ => "(library text)".

(** * Properties *)

Ltac unfold_py :=
  unfold bind, ret, raise, try_except, load_access_token, load_token_expiry,
    store_access_token, store_token_expiry, now, send, raise_for_status,
    response_json, getitem_str, get_default, as_number in *.

(** ** The cache test of line 45 *)

Lemma cached_token_hit env w tok e :
  _access_token w = Some tok ->
  _token_expiry w = Some e ->
  tok <> EmptyString ->
  e <> 0 ->
  timestamp env (clock_reads w) < e ->
  cached_token env w = (Return (Some tok), tick w).
Proof.
  intros Ha He Htok Hne Hlt.
  unfold cached_token. unfold_py. simpl. rewrite Ha. simpl.
  destruct (String.eqb_spec tok EmptyString) as [|_]; [contradiction|]. simpl.
  rewrite He. simpl.
  destruct (Z.eqb_spec e 0) as [|_]; [contradiction|]. simpl.
  destruct (Z.ltb_spec (timestamp env (clock_reads w)) e); [reflexivity|lia].
Qed.

(** The test always completes; it reads the clock at most once and
    touches nothing else; when it holds, both globals are set and the
    clock is strictly before the expiry. *)
Lemma cached_token_inv env w :
  exists hit w1,
    cached_token env w = (Return hit, w1)
    /\ (w1 = w \/ w1 = tick w)
    /\ (forall tok, hit = Some tok ->
          w1 = tick w
          /\ _access_token w = Some tok
          /\ exists e, _token_expiry w = Some e
                       /\ timestamp env (clock_reads w) < e).
Proof.
  unfold cached_token. unfold_py.
  destruct (_access_token w) as [tok|] eqn:Ha; simpl.
  2:{ exists None, w. split; [reflexivity | split; [auto | discriminate]]. }
  destruct (negb (String.eqb tok EmptyString)); simpl.
  2:{ exists None, w. split; [reflexivity | split; [auto | discriminate]]. }
  destruct (_token_expiry w) as [e|] eqn:He; simpl.
  2:{ exists None, w. split; [reflexivity | split; [auto | discriminate]]. }
  destruct (negb (e =? 0)); simpl.
  2:{ exists None, w. split; [reflexivity | split; [auto | discriminate]]. }
  destruct (Z.ltb_spec (timestamp env (clock_reads w)) e).
  - exists (Some tok), (tick w). split; [reflexivity | split; [auto|]].
    intros tok' Heq. injection Heq as <-. repeat split; auto. exists e. auto.
  - exists None, (tick w). split; [reflexivity | split; [auto | discriminate]].
Qed.


(** ** The token exchange of lines 48 to 69 *)

Lemma small_fits_float n : Z.abs n < 2 ^ 51 -> fits_float n = true.
Proof.
  intros Hsmall. unfold fits_float. apply Z.ltb_lt.
  apply (Z.lt_le_trans _ (2 ^ 51)); [exact Hsmall|].
  vm_compute. discriminate.
Qed.

Lemma default_lifetime_fits : fits_float 3600 = true.
Proof. apply small_fits_float. vm_compute. reflexivity. Qed.

Lemma exchange_token_unconfigured env w :
  missing_credentials env = true ->
  exchange_token env w
  = (Raise (Exception
       "Missing required credentials: TENANT_ID, CLIENT_ID, CLIENT_SECRET"), w).
Proof. intros H. unfold exchange_token. rewrite H. reflexivity. Qed.

Lemma exchange_token_granted env w resp fields tok lifetime :
  missing_credentials env = false ->
  transport env (wire w) (token_request env) = Reply resp ->
  is_success resp = true ->
  json resp = Some (JObj fields) ->
  lookup "access_token" fields = Some (JStr tok) ->
  granted fields = Some lifetime ->
  fits_float lifetime = true ->
  exchange_token env w
  = (Return tok,
     {| _access_token := Some tok;
        _token_expiry := Some (timestamp env (clock_reads w) + lifetime - 60);
        clock_reads := S (clock_reads w);
        wire := wire w ++ [token_request env] |}).
Proof.
  intros Hc Hnet Hok Hjson Htok Hlife Hfits.
  unfold exchange_token. rewrite Hc. unfold_py.
  rewrite Hnet, Hok, Hjson. simpl. rewrite Htok. simpl.
  unfold granted in Hlife.
  destruct (lookup "expires_in" fields) as [[ | b | n | s | l | o]|];
    try discriminate; injection Hlife as <-; simpl;
    rewrite ?Hfits; reflexivity.
Qed.

(** A non-2xx answer ends the exchange before any assignment. *)
Lemma exchange_token_refused env w resp :
  missing_credentials env = false ->
  transport env (wire w) (token_request env) = Reply resp ->
  is_success resp = false ->
  exchange_token env w = (Raise (HTTPStatusError resp), logged (token_request env) w).
Proof.
  intros Hc Hnet Hbad.
  unfold exchange_token. rewrite Hc. unfold_py.
  rewrite Hnet, Hbad. reflexivity.
Qed.

(** When the exchange returns, all of it happened. *)
Lemma exchange_token_inv env w tok w' :
  exchange_token env w = (Return tok, w') ->
  exists resp fields lifetime,
    missing_credentials env = false
    /\ transport env (wire w) (token_request env) = Reply resp
    /\ is_success resp = true
    /\ json resp = Some (JObj fields)
    /\ lookup "access_token" fields = Some (JStr tok)
    /\ granted fields = Some lifetime
    /\ fits_float lifetime = true.
Proof.
  unfold exchange_token. unfold_py.
  destruct (missing_credentials env) eqn:Hc; [discriminate|].
  destruct (transport env (wire w) (token_request env)) as [resp|msg] eqn:Hnet;
    [|discriminate].
  destruct (is_success resp) eqn:Hok; simpl; [|discriminate].
  destruct (json resp) as [[ | b | n | s | l | fields]|] eqn:Hjson; simpl;
    try discriminate.
  destruct (lookup "access_token" fields) as [[ | b | n | s | l | o]|] eqn:Htok;
    simpl; try discriminate.
  intros Hrun.
  assert (Hlife : exists lifetime,
             granted fields = Some lifetime /\ fits_float lifetime = true
             /\ s = tok).
  { unfold granted.
    destruct (lookup "expires_in" fields) as [[ | b | n | s' | l | o]|];
      simpl in Hrun; try discriminate.
    - injection Hrun as <- _. exists (Z.b2z b). split; [reflexivity|].
      split; [destruct b; reflexivity | reflexivity].
    - destruct (fits_float n) eqn:Hfits; simpl in Hrun; [|discriminate].
      injection Hrun as <- _. eauto.
    - injection Hrun as <- _. exists 3600. auto using default_lifetime_fits. }
  destruct Hlife as (lifetime & Hlife & Hfits & ->).
  exists resp, fields, lifetime. auto 10.
Qed.

(** ** [get_access_token] *)

Lemma get_access_token_miss env w w1 :
  cached_token env w = (Return None, w1) ->
  get_access_token env w = exchange_token env w1.
Proof. intros H. unfold get_access_token, bind. rewrite H. reflexivity. Qed.

Lemma get_access_token_hit env w tok w1 :
  cached_token env w = (Return (Some tok), w1) ->
  get_access_token env w = (Return tok, w1).
Proof. intros H. unfold get_access_token, bind. rewrite H. reflexivity. Qed.

Lemma missing_credentials_iff env :
  missing_credentials env = true
  <-> (TENANT_ID env = EmptyString \/ CLIENT_ID env = EmptyString
       \/ CLIENT_SECRET env = EmptyString).
Proof.
  unfold missing_credentials.
  rewrite !orb_true_iff, !String.eqb_eq. tauto.
Qed.

(** An exception of the token stage leaves the dispatcher as it is: line
    74 is outside the [try]. *)
Lemma make_graph_request_token_raise env w e w' method endpoint data query :
  get_access_token env w = (Raise e, w') ->
  make_graph_request env method endpoint data query w = (Raise e, w').
Proof. intros H. unfold make_graph_request, bind. rewrite H. reflexivity. Qed.

(** Without credentials the process never leaves its initial state. *)
Lemma unconfigured_stays_initial env w :
  missing_credentials env = true ->
  reachable env w ->
  w = initial.
Proof.
  intros Hmiss Hreach.
  assert (Htok : get_access_token env initial
                 = (Raise (Exception
                      "Missing required credentials: TENANT_ID, CLIENT_ID, CLIENT_SECRET"),
                    initial)).
  { rewrite (get_access_token_miss env initial initial) by reflexivity.
    apply exchange_token_unconfigured, Hmiss. }
  induction Hreach as [| w _ IH | w method endpoint data query _ IH].
  - reflexivity.
  - rewrite IH, Htok. reflexivity.
  - rewrite IH.
    rewrite (make_graph_request_token_raise _ _ _ _ _ _ _ _ Htok). reflexivity.
Qed.

(** C4 (as amended): when the cached token is a non-empty string, its
    expiry is not zero and the clock is strictly before the expiry,
    [get_access_token] returns the cached token, sends nothing and leaves
    both globals as they were; the only trace of the call is that the
    clock has been read once. *)
Theorem cached_token_fast_path env w tok e :
  _access_token w = Some tok ->
  _token_expiry w = Some e ->
  tok <> EmptyString ->
  e <> 0 ->
  timestamp env (clock_reads w) < e ->
  get_access_token env w = (Return tok, tick w)
  /\ wire (tick w) = wire w
  /\ _access_token (tick w) = Some tok
  /\ _token_expiry (tick w) = Some e.
Proof.
  intros Ha He Htok Hne Hlt.
  split.
  - apply get_access_token_hit.
    apply (cached_token_hit env w tok e); assumption.
  - unfold tick; simpl. auto.
Qed.

Lemma cached_token_fast_path_witness :
  get_access_token (tenant "new" 3600 ticking inbox) (holding "old" 5000)
  = (Return "old", tick (holding "old" 5000))
  /\ wire (tick (holding "old" 5000)) = wire (holding "old" 5000)
  /\ _access_token (tick (holding "old" 5000)) = Some "old"
  /\ _token_expiry (tick (holding "old" 5000)) = Some 5000.
Proof.
  apply (cached_token_fast_path (tenant "new" 3600 ticking inbox)
           (holding "old" 5000) "old" 5000).
  - reflexivity.
  - reflexivity.
  - discriminate.
  - discriminate.
  - reflexivity.
Defined.

(** C4 (as worded) fails: an identity provider that grants the empty
    string as a token leaves a cached token whose expiry (4540) is ahead
    of the clock (1001), and the next call exchanges again. *)
Lemma empty_token_is_not_served :
  reachable (tenant EmptyString 3600 ticking inbox)
    (snd (get_access_token (tenant EmptyString 3600 ticking inbox) initial))
  /\ ~ served_from_cache (tenant EmptyString 3600 ticking inbox)
         (snd (get_access_token (tenant EmptyString 3600 ticking inbox) initial)).
Proof.
  split.
  - apply reach_token, reach_initial.
  - intros Hserved.
    destruct (Hserved EmptyString 4540 eq_refl eq_refl eq_refl)
      as (w' & Hrun & Hwire & _).
    vm_compute in Hrun. injection Hrun as <-.
    vm_compute in Hwire. discriminate Hwire.
Qed.




(** C6: when the cache test fails, the credentials are present and the
    token endpoint answers with a status outside 2xx, the call raises
    [httpx.HTTPStatusError] holding that very response (its status code
    and its body text), one request has gone out, and both globals are
    what they were before the call. *)
Theorem refused_exchange_keeps_cache env w w1 resp :
  cached_token env w = (Return None, w1) ->
  missing_credentials env = false ->
  transport env (wire w) (token_request env) = Reply resp ->
  is_success resp = false ->
  exists w',
    get_access_token env w = (Raise (HTTPStatusError resp), w')
    /\ wire w' = (wire w ++ [token_request env])%list
    /\ _access_token w' = _access_token w
    /\ _token_expiry w' = _token_expiry w.
Proof.
  intros Hmiss Hc Hnet Hbad.
  destruct (cached_token_inv env w) as (hit & w1' & Hrun & Hw1 & _).
  rewrite Hmiss in Hrun. injection Hrun as _ <-.
  assert (Hframe : wire w1 = wire w /\ _access_token w1 = _access_token w
                   /\ _token_expiry w1 = _token_expiry w)
    by (destruct Hw1; subst; simpl; auto).
  destruct Hframe as (Hwire & Ha & He).
  rewrite <- Hwire in Hnet.
  exists (logged (token_request env) w1). split.
  - rewrite (get_access_token_miss env w w1 Hmiss).
    apply exchange_token_refused; assumption.
  - simpl. rewrite Hwire, Ha, He. auto.
Qed.

Lemma refused_exchange_keeps_cache_witness :
  exists w',
    get_access_token (provider invalid_client ticking inbox) (holding "old" 900)
    = (Raise (HTTPStatusError invalid_client), w')
    /\ wire w'
       = (wire (holding "old" 900)
          ++ [token_request (provider invalid_client ticking inbox)])%list
    /\ _access_token w' = _access_token (holding "old" 900)
    /\ _token_expiry w' = _token_expiry (holding "old" 900).
Proof.
  apply (refused_exchange_keeps_cache (provider invalid_client ticking inbox)
           (holding "old" 900) (tick (holding "old" 900)) invalid_client).
  - reflexivity.
  - reflexivity.
  - reflexivity.
  - reflexivity.
Defined.

(** C8: in every state the process reaches, when one of the three
    credentials is empty, [get_access_token] raises the
    missing-credentials exception and the state, hence the request log, is
    what it was; and so does every call of the dispatcher, whatever its
    arguments. *)
Theorem missing_credentials_stop_every_call env w :
  reachable env w ->
  (TENANT_ID env = EmptyString \/ CLIENT_ID env = EmptyString
   \/ CLIENT_SECRET env = EmptyString) ->
  get_access_token env w
  = (Raise (Exception
       "Missing required credentials: TENANT_ID, CLIENT_ID, CLIENT_SECRET"), w)
  /\ forall method endpoint data query,
       make_graph_request env method endpoint data query w
       = (Raise (Exception
            "Missing required credentials: TENANT_ID, CLIENT_ID, CLIENT_SECRET"), w).
Proof.
  intros Hreach Hempty.
  apply missing_credentials_iff in Hempty.
  rewrite (unconfigured_stays_initial env w Hempty Hreach).
  assert (Htok : get_access_token env initial
                 = (Raise (Exception
                      "Missing required credentials: TENANT_ID, CLIENT_ID, CLIENT_SECRET"),
                    initial)).
  { rewrite (get_access_token_miss env initial initial) by reflexivity.
    apply exchange_token_unconfigured, Hempty. }
  split; [exact Htok|].
  intros. apply make_graph_request_token_raise, Htok.
Qed.

Lemma missing_credentials_stop_every_call_witness :
  get_access_token (unconfigured ticking inbox)
    (snd (make_graph_request (unconfigured ticking inbox)
            "GET" "/me/messages" None None initial))
  = (Raise (Exception
       "Missing required credentials: TENANT_ID, CLIENT_ID, CLIENT_SECRET"),
     snd (make_graph_request (unconfigured ticking inbox)
            "GET" "/me/messages" None None initial))
  /\ forall method endpoint data query,
       make_graph_request (unconfigured ticking inbox) method endpoint data query
         (snd (make_graph_request (unconfigured ticking inbox)
                 "GET" "/me/messages" None None initial))
       = (Raise (Exception
            "Missing required credentials: TENANT_ID, CLIENT_ID, CLIENT_SECRET"),
          snd (make_graph_request (unconfigured ticking inbox)
                 "GET" "/me/messages" None None initial)).
Proof.
  apply (missing_credentials_stop_every_call (unconfigured ticking inbox)).
  - apply reach_request, reach_initial.
  - right; right. reflexivity.
Defined.




(** ** Upper-casing *)

Lemma upper_ascii_idempotent c : upper_ascii (upper_ascii c) = upper_ascii c.
Proof. destruct c as [[] [] [] [] [] [] [] []]; reflexivity. Qed.

Lemma upper_idempotent s : upper (upper s) = upper s.
Proof.
  induction s as [|c s IH]; simpl.
  - reflexivity.
  - rewrite upper_ascii_idempotent, IH. reflexivity.
Qed.

Lemma supported_upper method : supported (upper method) = supported method.
Proof. unfold supported. rewrite upper_idempotent. reflexivity. Qed.

Lemma issued_upper method u h data query :
  issued (upper method) u h data query = issued method u h data query.
Proof. unfold issued. rewrite upper_idempotent. reflexivity. Qed.

(** ** The dispatcher *)

Lemma issued_supported method u h data query :
  supported method = true ->
  exists req, issued method u h data query = Some req.
Proof.
  unfold supported, issued. simpl.
  destruct (String.eqb (upper method) "GET"); [eauto|].
  destruct (String.eqb (upper method) "POST"); [eauto|].
  destruct (String.eqb (upper method) "PATCH"); [eauto|].
  destruct (String.eqb (upper method) "DELETE"); [eauto|].
  discriminate.
Qed.

Lemma issued_unsupported method u h data query :
  supported method = false ->
  issued method u h data query = None.
Proof.
  unfold supported, issued. simpl.
  destruct (String.eqb (upper method) "GET"); [discriminate|].
  destruct (String.eqb (upper method) "POST"); [discriminate|].
  destruct (String.eqb (upper method) "PATCH"); [discriminate|].
  destruct (String.eqb (upper method) "DELETE"); [discriminate|].
  reflexivity.
Qed.

(** The [try] block sends the request of the branch taken, or raises
    before sending when there is no branch. *)
Lemma dispatch_issued env method u h data query :
  dispatch env method u h data query
  = (response <-
       match issued method u h data query with
       | Some req => send env req
       | None => raise (ValueError ("Unsupported method: " ++ method))
       end ;;
     raise_for_status response ;;
     if negb (String.eqb (text response) EmptyString) then response_json response
     else ret (JObj [])).
Proof.
  unfold dispatch, issued.
  destruct (String.eqb (upper method) "GET"); [reflexivity|].
  destruct (String.eqb (upper method) "POST"); [reflexivity|].
  destruct (String.eqb (upper method) "PATCH"); [reflexivity|].
  destruct (String.eqb (upper method) "DELETE"); reflexivity.
Qed.

Lemma guarded_dispatch_refuses env method u h data query w :
  issued method u h data query = None ->
  try_except (dispatch env method u h data query) graph_error w
  = (Raise (ValueError ("Unsupported method: " ++ method)), w).
Proof.
  intros Hnone. rewrite dispatch_issued, Hnone. reflexivity.
Qed.

Lemma guarded_dispatch_answered env method u h data query w req resp :
  issued method u h data query = Some req ->
  transport env (wire w) req = Reply resp ->
  try_except (dispatch env method u h data query) graph_error w
  = (if is_success resp then
       if String.eqb (text resp) EmptyString then Return (JObj []) else decoded resp
     else
       Raise (Exception ("Graph API error " ++ str_of_int (status_code resp)
                         ++ ": " ++ text resp)),
     logged req w).
Proof.
  intros Hreq Hnet. rewrite dispatch_issued, Hreq.
  unfold_py. rewrite Hnet.
  destruct (is_success resp); simpl; [|reflexivity].
  destruct (String.eqb (text resp) EmptyString); simpl; [reflexivity|].
  unfold decoded. destruct (json resp); reflexivity.
Qed.

Lemma guarded_dispatch_broken env method u h data query w req msg :
  issued method u h data query = Some req ->
  transport env (wire w) req = Broken msg ->
  try_except (dispatch env method u h data query) graph_error w
  = (Raise (TransportError msg), logged req w).
Proof.
  intros Hreq Hnet. rewrite dispatch_issued, Hreq.
  unfold_py. rewrite Hnet. reflexivity.
Qed.

Lemma make_graph_request_token_return env w tok w1 method endpoint data query :
  get_access_token env w = (Return tok, w1) ->
  make_graph_request env method endpoint data query w
  = try_except
      (dispatch env method (GRAPH_BASE_URL ++ endpoint) (graph_headers tok) data query)
      graph_error w1.
Proof. intros H. unfold make_graph_request, bind. rewrite H. reflexivity. Qed.

Lemma client_error_is_not_success resp :
  400 <= status_code resp <= 599 -> is_success resp = false.
Proof.
  intros H. unfold is_success.
  destruct (Z.leb_spec (status_code resp) 299); [lia|].
  apply andb_false_r.
Qed.

(** C7: when the token stage returns, the method has a branch and the
    mailbox API answers the request with a 4xx or 5xx status, the
    dispatcher raises an exception whose message is
    "Graph API error <status>: <body>", the status in decimal and the body
    text as received; after the token stage exactly one request has gone
    out. *)
Theorem graph_error_carries_status_and_body
    env w tok w1 method endpoint data query req resp :
  get_access_token env w = (Return tok, w1) ->
  issued method (GRAPH_BASE_URL ++ endpoint) (graph_headers tok) data query = Some req ->
  transport env (wire w1) req = Reply resp ->
  400 <= status_code resp <= 599 ->
  exists w',
    make_graph_request env method endpoint data query w
    = (Raise (Exception ("Graph API error " ++ str_of_int (status_code resp)
                         ++ ": " ++ text resp)), w')
    /\ wire w' = (wire w1 ++ [req])%list.
Proof.
  intros Htok Hreq Hnet Hstatus.
  exists (logged req w1). split; [|reflexivity].
  rewrite (make_graph_request_token_return env w tok w1 _ _ _ _ Htok).
  rewrite (guarded_dispatch_answered env _ _ _ _ _ w1 req resp Hreq Hnet).
  rewrite (client_error_is_not_success resp Hstatus). reflexivity.
Qed.

Lemma graph_error_carries_status_and_body_witness :
  exists w',
    make_graph_request (tenant "new" 3600 ticking access_denied)
      "GET" "/me/messages" None None (holding "abc" 5000)
    = (Raise (Exception ("Graph API error " ++ str_of_int (status_code access_denied)
                         ++ ": " ++ text access_denied)), w')
    /\ wire w'
       = (wire (tick (holding "abc" 5000))
          ++ [graph_get (GRAPH_BASE_URL ++ "/me/messages") (graph_headers "abc") None])%list.
Proof.
  apply (graph_error_carries_status_and_body
           (tenant "new" 3600 ticking access_denied) (holding "abc" 5000)
           "abc" (tick (holding "abc" 5000)) "GET" "/me/messages" None None
           (graph_get (GRAPH_BASE_URL ++ "/me/messages") (graph_headers "abc") None)
           access_denied).
  - reflexivity.
  - reflexivity.
  - reflexivity.
  - simpl. lia.
Defined.

(** C9: when the token stage returns, the method has a branch and the
    mailbox API answers with a 2xx status, the dispatcher gives what
    [response.json()] gives when the body text is not empty, and the empty
    object when it is empty. *)
Theorem graph_success_result
    env w tok w1 method endpoint data query req resp :
  get_access_token env w = (Return tok, w1) ->
  issued method (GRAPH_BASE_URL ++ endpoint) (graph_headers tok) data query = Some req ->
  transport env (wire w1) req = Reply resp ->
  is_success resp = true ->
  (text resp <> EmptyString ->
     make_graph_request env method endpoint data query w
     = (decoded resp, logged req w1))
  /\ (text resp = EmptyString ->
        make_graph_request env method endpoint data query w
        = (Return (JObj []), logged req w1)).
Proof.
  intros Htok Hreq Hnet Hok.
  rewrite (make_graph_request_token_return env w tok w1 _ _ _ _ Htok).
  rewrite (guarded_dispatch_answered env _ _ _ _ _ w1 req resp Hreq Hnet).
  rewrite Hok.
  destruct (String.eqb_spec (text resp) EmptyString) as [Hempty|Hfull].
  - split; [contradiction | reflexivity].
  - split; [reflexivity | contradiction].
Qed.

Lemma graph_success_result_witness :
  (text no_content <> EmptyString ->
     make_graph_request (tenant "new" 3600 ticking no_content)
       "DELETE" "/me/messages/1" None None (holding "abc" 5000)
     = (decoded no_content,
        logged (graph_delete (GRAPH_BASE_URL ++ "/me/messages/1") (graph_headers "abc"))
          (tick (holding "abc" 5000))))
  /\ (text no_content = EmptyString ->
        make_graph_request (tenant "new" 3600 ticking no_content)
          "DELETE" "/me/messages/1" None None (holding "abc" 5000)
        = (Return (JObj []),
           logged (graph_delete (GRAPH_BASE_URL ++ "/me/messages/1") (graph_headers "abc"))
             (tick (holding "abc" 5000)))).
Proof.
  apply (graph_success_result
           (tenant "new" 3600 ticking no_content) (holding "abc" 5000)
           "abc" (tick (holding "abc" 5000)) "DELETE" "/me/messages/1" None None
           (graph_delete (GRAPH_BASE_URL ++ "/me/messages/1") (graph_headers "abc"))
           no_content).
  - reflexivity.
  - reflexivity.
  - reflexivity.
  - reflexivity.
Defined.

(** The two scenarios of the specification: a non-empty body comes back
    decoded, an empty one as the empty object. *)
Example inbox_is_decoded :
  fst (make_graph_request (tenant "new" 3600 ticking inbox)
         "GET" "/me/messages" None None initial)
  = Return (JArr [JNum 1; JNum 2]).
Proof. reflexivity. Qed.

Example no_content_is_empty_object :
  fst (make_graph_request (tenant "new" 3600 ticking no_content)
         "DELETE" "/me/messages/1" None None initial)
  = Return (JObj []).
Proof. reflexivity. Qed.

(** What each branch puts on the wire. *)
Lemma issued_shape method u h data query req :
  issued method u h data query = Some req ->
  url req = u /\ headers req = h /\ timeout req = 30 /\ form req = None
  /\ match verb req with
     | GET => json_body req = None /\ params req = query
     | POST | PATCH => json_body req = data /\ params req = query
     | DELETE => json_body req = None /\ params req = None
     end.
Proof.
  unfold issued.
  destruct (String.eqb (upper method) "GET");
    [intros H; injection H as <-; simpl; auto 10|].
  destruct (String.eqb (upper method) "POST");
    [intros H; injection H as <-; simpl; auto 10|].
  destruct (String.eqb (upper method) "PATCH");
    [intros H; injection H as <-; simpl; auto 10|].
  destruct (String.eqb (upper method) "DELETE");
    [intros H; injection H as <-; simpl; auto 10|].
  discriminate.
Qed.

(** C3 (where the code departs from it): a DELETE issued with query
    parameters goes out with none; the [client.delete] call of line 90
    does not pass [params], unlike the three branches above it. *)
Theorem delete_drops_query_params :
  make_graph_request (tenant "new" 3600 ticking no_content)
    "DELETE" "/me/messages/1" None (Some [("$select", "id")]) (holding "abc" 5000)
  = (Return (JObj []),
     {| _access_token := Some "abc";
        _token_expiry := Some 5000;
        clock_reads := 1;
        wire := [ {| verb := DELETE;
                     url := "https://graph.microsoft.com/v1.0/me/messages/1";
                     headers := [("Authorization", "Bearer abc");
                                 ("Content-Type", "application/json")];
                     form := None;
                     json_body := None;
                     params := None;
                     timeout := 30 |} ] |}).
Proof. reflexivity. Qed.

(** The sibling branch: the same call as a GET carries the parameters. *)
Example get_keeps_query_params :
  map params
    (wire (snd (make_graph_request (tenant "new" 3600 ticking inbox)
                  "GET" "/me/messages/1" None (Some [("$select", "id")])
                  (holding "abc" 5000))))
  = [Some [("$select", "id")]].
Proof. reflexivity. Qed.

(** C1 (as amended): for a method made of ASCII characters that has no
    branch the dispatcher runs the token stage exactly as
    [get_access_token] does and sends nothing more: the state it leaves is
    the one the token stage leaves, and it raises the unsupported-method
    [ValueError] when the token stage returned and the token stage's own
    exception otherwise.  When the cache test holds nothing at all has
    gone out. *)
Theorem unsupported_method_sends_no_graph_request
    env w method endpoint data query :
  ascii_only method = true ->
  supported method = false ->
  snd (make_graph_request env method endpoint data query w)
  = snd (get_access_token env w)
  /\ fst (make_graph_request env method endpoint data query w)
     = match fst (get_access_token env w) with
       | Return _ => Raise (ValueError ("Unsupported method: " ++ method))
       | Raise e => Raise e
       end
  /\ (forall tok w1,
        cached_token env w = (Return (Some tok), w1) ->
        make_graph_request env method endpoint data query w
        = (Raise (ValueError ("Unsupported method: " ++ method)), w1)
        /\ wire w1 = wire w).
Proof.
  intros _ Hno.
  assert (Hrun : forall tok w1,
             get_access_token env w = (Return tok, w1) ->
             make_graph_request env method endpoint data query w
             = (Raise (ValueError ("Unsupported method: " ++ method)), w1)).
  { intros tok w1 Htok.
    rewrite (make_graph_request_token_return env w tok w1 _ _ _ _ Htok).
    apply guarded_dispatch_refuses, issued_unsupported, Hno. }
  split; [|split].
  - destruct (get_access_token env w) as [[tok|e] w1] eqn:Htok.
    + rewrite (Hrun tok w1 eq_refl). reflexivity.
    + rewrite (make_graph_request_token_raise env w e w1 _ _ _ _ Htok). reflexivity.
  - destruct (get_access_token env w) as [[tok|e] w1] eqn:Htok.
    + rewrite (Hrun tok w1 eq_refl). reflexivity.
    + rewrite (make_graph_request_token_raise env w e w1 _ _ _ _ Htok). reflexivity.
  - intros tok w1 Hhit. split.
    + apply (Hrun tok). apply get_access_token_hit, Hhit.
    + destruct (cached_token_inv env w) as (hit & w1' & Htest & Hw1 & _).
      rewrite Hhit in Htest. injection Htest as _ <-.
      destruct Hw1; subst; reflexivity.
Qed.

Lemma unsupported_method_sends_no_graph_request_witness :
  snd (make_graph_request (tenant "new" 3600 ticking inbox)
         "TRACE" "/me/messages" None None (holding "abc" 5000))
  = snd (get_access_token (tenant "new" 3600 ticking inbox) (holding "abc" 5000))
  /\ fst (make_graph_request (tenant "new" 3600 ticking inbox)
            "TRACE" "/me/messages" None None (holding "abc" 5000))
     = match fst (get_access_token (tenant "new" 3600 ticking inbox)
                    (holding "abc" 5000)) with
       | Return _ => Raise (ValueError ("Unsupported method: " ++ "TRACE"))
       | Raise e => Raise e
       end
  /\ (forall tok w1,
        cached_token (tenant "new" 3600 ticking inbox) (holding "abc" 5000)
        = (Return (Some tok), w1) ->
        make_graph_request (tenant "new" 3600 ticking inbox)
          "TRACE" "/me/messages" None None (holding "abc" 5000)
        = (Raise (ValueError ("Unsupported method: " ++ "TRACE")), w1)
        /\ wire w1 = wire (holding "abc" 5000)).
Proof.
  apply (unsupported_method_sends_no_graph_request
           (tenant "new" 3600 ticking inbox) (holding "abc" 5000)
           "TRACE" "/me/messages" None None).
  - reflexivity.
  - reflexivity.
Defined.

(** C1 (as worded) fails: with nothing cached, [TRACE] is refused only
    after the token exchange has gone out. *)
Lemma trace_exchanges_a_token_first :
  supported "TRACE" = false
  /\ length (wire (snd (make_graph_request (tenant "new" 3600 ticking inbox)
                          "TRACE" "/me/messages" None None initial))) = 1%nat
  /\ ~ rejected_offline (tenant "new" 3600 ticking inbox) initial
         "TRACE" "/me/messages" None None.
Proof.
  split; [reflexivity|]. split; [reflexivity|].
  intros (msg & w' & Hrun & Hwire).
  vm_compute in Hrun. injection Hrun as _ <-.
  vm_compute in Hwire. discriminate Hwire.
Qed.

(** C10 (as amended): for a method with a branch, the dispatcher does the
    same with [method] and with [method.upper()]; for a method without,
    both calls leave the same state and end the same way, except that
    each unsupported-method [ValueError] quotes the method as it was
    given. *)
Theorem dispatch_is_case_insensitive env w method endpoint data query :
  if supported method then
    make_graph_request env method endpoint data query w
    = make_graph_request env (upper method) endpoint data query w
  else
    snd (make_graph_request env method endpoint data query w)
    = snd (make_graph_request env (upper method) endpoint data query w)
    /\ (fst (make_graph_request env method endpoint data query w)
        = fst (make_graph_request env (upper method) endpoint data query w)
        \/ (fst (make_graph_request env method endpoint data query w)
            = Raise (ValueError ("Unsupported method: " ++ method))
            /\ fst (make_graph_request env (upper method) endpoint data query w)
               = Raise (ValueError ("Unsupported method: " ++ upper method)))).
Proof.
  destruct (supported method) eqn:Hs.
  - destruct (get_access_token env w) as [[tok|e] w1] eqn:Htok.
    + rewrite !(make_graph_request_token_return env w tok w1 _ _ _ _ Htok).
      destruct (issued_supported method (GRAPH_BASE_URL ++ endpoint)
                  (graph_headers tok) data query Hs) as (req & Hreq).
      pose proof Hreq as Hreq'. rewrite <- issued_upper in Hreq'.
      destruct (transport env (wire w1) req) as [resp|msg] eqn:Hnet.
      * rewrite (guarded_dispatch_answered env _ _ _ _ _ w1 req resp Hreq Hnet).
        rewrite (guarded_dispatch_answered env _ _ _ _ _ w1 req resp Hreq' Hnet).
        reflexivity.
      * rewrite (guarded_dispatch_broken env _ _ _ _ _ w1 req msg Hreq Hnet).
        rewrite (guarded_dispatch_broken env _ _ _ _ _ w1 req msg Hreq' Hnet).
        reflexivity.
    + rewrite !(make_graph_request_token_raise env w e w1 _ _ _ _ Htok).
      reflexivity.
  - destruct (get_access_token env w) as [[tok|e] w1] eqn:Htok.
    + rewrite !(make_graph_request_token_return env w tok w1 _ _ _ _ Htok).
      rewrite (guarded_dispatch_refuses env method);
        [|apply issued_unsupported, Hs].
      rewrite (guarded_dispatch_refuses env (upper method));
        [|apply issued_unsupported; rewrite supported_upper; exact Hs].
      simpl. auto.
    + rewrite !(make_graph_request_token_raise env w e w1 _ _ _ _ Htok).
      simpl. auto.
Qed.

(** C10 (as worded) fails: [trace] and [TRACE] are both refused, with
    different messages. *)
Lemma trace_is_quoted_as_given :
  ~ case_blind (tenant "new" 3600 ticking inbox) (holding "abc" 5000)
      "trace" "/me/messages" None None.
Proof.
  unfold case_blind. vm_compute. discriminate.
Qed.

(** Lower and mixed case reach the GET branch. *)
Example lower_case_get_is_dispatched :
  make_graph_request (tenant "new" 3600 ticking inbox)
    "get" "/me/messages" None None (holding "abc" 5000)
  = make_graph_request (tenant "new" 3600 ticking inbox)
      "Get" "/me/messages" None None (holding "abc" 5000)
  /\ fst (make_graph_request (tenant "new" 3600 ticking inbox)
            "get" "/me/messages" None None (holding "abc" 5000))
     = Return (JArr [JNum 1; JNum 2]).
Proof. split; reflexivity. Qed.

(** * Further properties of the token cache and the dispatcher *)

(** ** What a call leaves behind *)

(** The cache test never sends and never writes the globals. *)
Lemma cached_token_frame env w hit w1 :
  cached_token env w = (Return hit, w1) ->
  wire w1 = wire w
  /\ _access_token w1 = _access_token w
  /\ _token_expiry w1 = _token_expiry w.
Proof.
  intros Hrun.
  destruct (cached_token_inv env w) as (hit' & w1' & Htest & Hw1 & _).
  rewrite Hrun in Htest. injection Htest as _ <-.
  destruct Hw1; subst; simpl; auto.
Qed.

(** The exchange sends the token request, unless the credentials are
    missing. *)
Lemma exchange_token_wire env w :
  missing_credentials env = false ->
  wire (snd (exchange_token env w)) = (wire w ++ [token_request env])%list.
Proof.
  intros Hc. unfold exchange_token. rewrite Hc. unfold_py.
  destruct (transport env (wire w) (token_request env)) as [resp|msg];
    [|reflexivity].
  destruct (is_success resp); simpl; [|reflexivity].
  destruct (json resp) as [[ | b | n | s | l | fields]|]; simpl; try reflexivity.
  destruct (lookup "access_token" fields) as [[ | b | n | s | l | o]|];
    simpl; try reflexivity.
  destruct (lookup "expires_in" fields) as [[ | b | n | s' | l | o]|];
    simpl; try destruct (fits_float n); reflexivity.
Qed.

(** A failed exchange has not written the expiry, and has written the
    token only when the failure is the [TypeError] or the [OverflowError]
    of the expiry sum. *)
Lemma exchange_token_raise env w e w' :
  exchange_token env w = (Raise e, w') ->
  _token_expiry w' = _token_expiry w
  /\ (e <> TypeError -> e <> OverflowError -> _access_token w' = _access_token w).
Proof.
  unfold exchange_token. unfold_py.
  destruct (missing_credentials env).
  { intros H; injection H as <- <-. auto. }
  destruct (transport env (wire w) (token_request env)) as [resp|msg].
  2:{ intros H; injection H as <- <-. simpl. auto. }
  destruct (is_success resp); simpl.
  2:{ intros H; injection H as <- <-. simpl. auto. }
  destruct (json resp) as [[ | b | n | s | l | fields]|]; simpl;
    try (intros H; injection H as <- <-; simpl; auto; fail).
  destruct (lookup "access_token" fields) as [[ | b | n | s | l | o]|];
    simpl; try (intros H; injection H as <- <-; simpl; auto; fail).
  destruct (lookup "expires_in" fields) as [[ | b | n | s' | l | o]|];
    simpl; try destruct (fits_float n); simpl; intros H; try discriminate H;
    injection H as <- <-; simpl; (split; [reflexivity | congruence]).
Qed.

(** The token a call returns is the token in the cache. *)
Lemma returned_token_is_cached env w tok w' :
  get_access_token env w = (Return tok, w') ->
  _access_token w' = Some tok.
Proof.
  intros Hrun.
  destruct (cached_token_inv env w) as (hit & w1 & Htest & Hw1 & Hhit).
  destruct hit as [tok'|].
  - rewrite (get_access_token_hit env w tok' w1 Htest) in Hrun.
    injection Hrun as <- <-.
    destruct (Hhit tok' eq_refl) as (-> & Ha & _). exact Ha.
  - rewrite (get_access_token_miss env w w1 Htest) in Hrun.
    destruct (exchange_token_inv env w1 tok w' Hrun)
      as (resp & fields & lifetime & Hc & Hnet & Hok & Hjson & Htok & Hlife & Hfits).
    rewrite (exchange_token_granted env w1 resp fields tok lifetime
               Hc Hnet Hok Hjson Htok Hlife Hfits) in Hrun.
    injection Hrun as <-. reflexivity.
Qed.

(** After the token stage the dispatcher sends the request of its branch,
    or nothing when there is no branch; it never writes the globals. *)
Lemma guarded_dispatch_world env method u h data query w :
  match issued method u h data query with
  | Some req =>
      snd (try_except (dispatch env method u h data query) graph_error w)
      = logged req w
  | None =>
      snd (try_except (dispatch env method u h data query) graph_error w) = w
  end.
Proof.
  destruct (issued method u h data query) as [req|] eqn:Hreq.
  - destruct (transport env (wire w) req) as [resp|msg] eqn:Hnet.
    + rewrite (guarded_dispatch_answered env _ _ _ _ _ w req resp Hreq Hnet).
      reflexivity.
    + rewrite (guarded_dispatch_broken env _ _ _ _ _ w req msg Hreq Hnet).
      reflexivity.
  - rewrite (guarded_dispatch_refuses env _ _ _ _ _ w Hreq). reflexivity.
Qed.

(** One call of [get_access_token] sends nothing or exactly the token
    request, after what was sent before. *)
Lemma get_access_token_wire env w :
  wire (snd (get_access_token env w)) = wire w
  \/ wire (snd (get_access_token env w)) = (wire w ++ [token_request env])%list.
Proof.
  destruct (cached_token_inv env w) as (hit & w1 & Htest & _ & _).
  destruct (cached_token_frame env w hit w1 Htest) as (Hwire & _).
  destruct hit as [tok|].
  - left. rewrite (get_access_token_hit env w tok w1 Htest). exact Hwire.
  - rewrite (get_access_token_miss env w w1 Htest).
    destruct (missing_credentials env) eqn:Hc.
    + left. rewrite (exchange_token_unconfigured env w1 Hc). exact Hwire.
    + right. rewrite (exchange_token_wire env w1 Hc), Hwire. reflexivity.
Qed.

(** One call of the dispatcher sends, after what was sent before, at
    most the token request followed by at most one Graph request, which is
    the request of the branch taken with the returned token in its
    headers. *)
Lemma make_graph_request_wire env w method endpoint data query :
  exists exchange graph,
    wire (snd (make_graph_request env method endpoint data query w))
    = (wire w ++ exchange ++ graph)%list
    /\ (exchange = [] \/ exchange = [token_request env])
    /\ (graph = []
        \/ exists tok req,
             fst (get_access_token env w) = Return tok
             /\ issued method (GRAPH_BASE_URL ++ endpoint) (graph_headers tok)
                  data query = Some req
             /\ graph = [req]).
Proof.
  destruct (get_access_token env w) as [[tok|e] w1] eqn:Htok.
  - assert (Hex : exists exchange, wire w1 = (wire w ++ exchange)%list
                   /\ (exchange = [] \/ exchange = [token_request env])).
    { destruct (get_access_token_wire env w) as [H|H];
        rewrite Htok in H; simpl in H.
      - exists []. rewrite app_nil_r. auto.
      - exists [token_request env]. auto. }
    destruct Hex as (exchange & Hwire & Hexchange).
    rewrite (make_graph_request_token_return env w tok w1 _ _ _ _ Htok).
    pose proof (guarded_dispatch_world env method (GRAPH_BASE_URL ++ endpoint)
                  (graph_headers tok) data query w1) as Hworld.
    destruct (issued method (GRAPH_BASE_URL ++ endpoint) (graph_headers tok)
                data query) as [req|] eqn:Hreq.
    + exists exchange, [req]. rewrite Hworld. simpl. rewrite Hwire.
      split; [symmetry; apply app_assoc|]. split; [exact Hexchange|].
      right. exists tok, req. auto.
    + exists exchange, []. rewrite Hworld, Hwire, app_nil_r. auto.
  - rewrite (make_graph_request_token_raise env w e w1 _ _ _ _ Htok). simpl.
    destruct (get_access_token_wire env w) as [H|H];
      rewrite Htok in H; simpl in H.
    + exists [], []. rewrite H. simpl. rewrite app_nil_r. auto.
    + exists [token_request env], []. rewrite H, app_nil_r. auto.
Qed.

(** X1: no call retries.  One call of [get_access_token] adds to the
    requests sent nothing or exactly the token request; one call of the
    dispatcher adds at most the token request followed by at most one
    Graph request, the one of the branch taken, built with the token the
    token stage returned. *)
Theorem a_call_sends_each_request_once env w method endpoint data query :
  (wire (snd (get_access_token env w)) = wire w
   \/ wire (snd (get_access_token env w)) = (wire w ++ [token_request env])%list)
  /\ exists exchange graph,
       wire (snd (make_graph_request env method endpoint data query w))
       = (wire w ++ exchange ++ graph)%list
       /\ (exchange = [] \/ exchange = [token_request env])
       /\ (graph = []
           \/ exists tok req,
                fst (get_access_token env w) = Return tok
                /\ issued method (GRAPH_BASE_URL ++ endpoint) (graph_headers tok)
                     data query = Some req
                /\ graph = [req]).
Proof.
  split.
  - apply get_access_token_wire.
  - apply make_graph_request_wire.
Qed.

(** How one call of [get_access_token] may change the two globals: not
    at all, or to a new token with the expiry as it was, or to a new token
    with a new expiry. *)
Lemma get_access_token_cache env w :
  (_access_token (snd (get_access_token env w)) = _access_token w
   /\ _token_expiry (snd (get_access_token env w)) = _token_expiry w)
  \/ (exists tok,
        _access_token (snd (get_access_token env w)) = Some tok
        /\ (_token_expiry (snd (get_access_token env w)) = _token_expiry w
            \/ exists e, _token_expiry (snd (get_access_token env w)) = Some e)).
Proof.
  destruct (cached_token_inv env w) as (hit & w1 & Htest & _ & _).
  destruct (cached_token_frame env w hit w1 Htest) as (_ & Ha & He).
  destruct hit as [tok|].
  - left. rewrite (get_access_token_hit env w tok w1 Htest). auto.
  - rewrite (get_access_token_miss env w w1 Htest).
    destruct (exchange_token env w1) as [[tok|e] w'] eqn:Hrun; simpl.
    + right. exists tok.
      destruct (exchange_token_inv env w1 tok w' Hrun)
        as (resp & fields & lifetime & Hc & Hnet & Hok & Hjson & Htok & Hlife & Hfits).
      rewrite (exchange_token_granted env w1 resp fields tok lifetime
                 Hc Hnet Hok Hjson Htok Hlife Hfits) in Hrun.
      injection Hrun as <-. simpl. eauto.
    + destruct (exchange_token_raise env w1 e w' Hrun) as (Hexp & Htok).
      unfold exchange_token in Hrun. unfold_py.
      destruct (missing_credentials env).
      { injection Hrun as _ <-. left. auto. }
      destruct (transport env (wire w1) (token_request env)) as [resp|msg].
      2:{ injection Hrun as _ <-. left. auto. }
      destruct (is_success resp); simpl in Hrun.
      2:{ injection Hrun as _ <-. left. auto. }
      destruct (json resp) as [[ | b | n | s | l | fields]|]; simpl in Hrun;
        try (injection Hrun as _ <-; left; auto; fail).
      destruct (lookup "access_token" fields) as [[ | b | n | s | l | o]|];
        simpl in Hrun; try (injection Hrun as _ <-; left; auto; fail).
      destruct (lookup "expires_in" fields) as [[ | b | n | s' | l | o]|];
        simpl in Hrun; try destruct (fits_float n); simpl in Hrun;
        try discriminate Hrun;
        injection Hrun as _ <-; right; exists s; simpl; (split; [reflexivity|]);
        left; exact He.
Qed.

(** The dispatcher leaves the globals as its token stage leaves them. *)
Lemma make_graph_request_cache env w method endpoint data query :
  _access_token (snd (make_graph_request env method endpoint data query w))
  = _access_token (snd (get_access_token env w))
  /\ _token_expiry (snd (make_graph_request env method endpoint data query w))
     = _token_expiry (snd (get_access_token env w)).
Proof.
  destruct (get_access_token env w) as [[tok|e] w1] eqn:Htok.
  - rewrite (make_graph_request_token_return env w tok w1 _ _ _ _ Htok).
    pose proof (guarded_dispatch_world env method (GRAPH_BASE_URL ++ endpoint)
                  (graph_headers tok) data query w1) as Hworld.
    destruct (issued method (GRAPH_BASE_URL ++ endpoint) (graph_headers tok)
                data query); rewrite Hworld; simpl; auto.
  - rewrite (make_graph_request_token_raise env w e w1 _ _ _ _ Htok). auto.
Qed.

(** X2: when every token the network hands out is a string, then in
    every state the process reaches an expiry is cached only together
    with a token. *)
Theorem expiry_is_cached_with_a_token env w :
  string_tokens env ->
  reachable env w ->
  _token_expiry w <> None ->
  _access_token w <> None.
Proof.
  intros _ Hreach.
  assert (Hstep : forall v, (_token_expiry v <> None -> _access_token v <> None) ->
            _token_expiry (snd (get_access_token env v)) <> None ->
            _access_token (snd (get_access_token env v)) <> None).
  { intros v IH Hexp.
    destruct (get_access_token_cache env v) as [(Ha & He) | (tok & Ha & _)].
    - rewrite Ha. apply IH. rewrite <- He. exact Hexp.
    - rewrite Ha. discriminate. }
  induction Hreach as [| w _ IH | w method endpoint data query _ IH].
  - simpl. intros H. contradiction.
  - apply Hstep, IH.
  - destruct (make_graph_request_cache env w method endpoint data query)
      as (Ha & He).
    rewrite Ha, He. apply Hstep, IH.
Qed.

Lemma expiry_is_cached_with_a_token_witness :
  _access_token
    (snd (get_access_token (tenant "new" 3600 ticking inbox) initial)) <> None.
Proof.
  apply (expiry_is_cached_with_a_token (tenant "new" 3600 ticking inbox)).
  - intros log r resp fields v Hnet Hjson Hkey. simpl in Hnet.
    destruct (form r); injection Hnet as <-; simpl in Hjson.
    + injection Hjson as <-. simpl in Hkey. injection Hkey as <-. eauto.
    + discriminate Hjson.
  - apply reach_token, reach_initial.
  - discriminate.
Defined.

(** X3: every request the process has ever sent carries the timeout of
    30. *)
Theorem every_request_has_a_timeout env w r :
  reachable env w ->
  In r (wire w) ->
  timeout r = 30.
Proof.
  intros Hreach. revert r.
  induction Hreach as [| w _ IH | w method endpoint data query _ IH]; intros r Hin.
  - contradiction.
  - destruct (get_access_token_wire env w) as [H|H];
      rewrite H in Hin.
    + apply IH, Hin.
    + apply in_app_or in Hin. destruct Hin as [Hin|[<-|[]]].
      * apply IH, Hin.
      * reflexivity.
  - destruct (make_graph_request_wire env w method endpoint data query)
      as (exchange & graph & Hwire & Hex & Hgr).
    rewrite Hwire in Hin.
    apply in_app_or in Hin. destruct Hin as [Hin|Hin]; [apply IH, Hin|].
    apply in_app_or in Hin. destruct Hin as [Hin|Hin].
    + destruct Hex as [->| ->]; [contradiction|].
      destruct Hin as [<-|[]]. reflexivity.
    + destruct Hgr as [->|(tok & req & _ & Hreq & ->)]; [contradiction|].
      destruct Hin as [<-|[]].
      apply issued_shape in Hreq. tauto.
Qed.

Lemma every_request_has_a_timeout_witness :
  timeout (token_request (tenant "new" 3600 ticking inbox)) = 30.
Proof.
  apply (every_request_has_a_timeout (tenant "new" 3600 ticking inbox)
           (snd (make_graph_request (tenant "new" 3600 ticking inbox)
                   "GET" "/me/messages" None None initial))).
  - apply reach_request, reach_initial.
  - simpl. left. reflexivity.
Defined.

(** X4: a call of [get_access_token] that raises has not changed the
    cached expiry, and has changed the cached token only if it raised the
    [TypeError] or the [OverflowError] of the expiry sum of line 67. *)
Theorem failed_token_call_keeps_the_expiry env w e w' :
  get_access_token env w = (Raise e, w') ->
  _token_expiry w' = _token_expiry w
  /\ (e <> TypeError -> e <> OverflowError -> _access_token w' = _access_token w).
Proof.
  intros Hrun.
  destruct (cached_token_inv env w) as (hit & w1 & Htest & _ & _).
  destruct (cached_token_frame env w hit w1 Htest) as (_ & Ha & He).
  destruct hit as [tok|].
  - rewrite (get_access_token_hit env w tok w1 Htest) in Hrun. discriminate.
  - rewrite (get_access_token_miss env w w1 Htest) in Hrun.
    destruct (exchange_token_raise env w1 e w' Hrun) as (Hexp & Htok).
    split.
    + rewrite Hexp. exact He.
    + intros Hne Hno. rewrite (Htok Hne Hno). exact Ha.
Qed.

Lemma failed_token_call_keeps_the_expiry_witness :
  _token_expiry (logged (token_request (provider invalid_client ticking inbox))
                   (tick (holding "old" 900)))
  = _token_expiry (holding "old" 900)
  /\ (HTTPStatusError invalid_client <> TypeError ->
      HTTPStatusError invalid_client <> OverflowError ->
      _access_token (logged (token_request (provider invalid_client ticking inbox))
                       (tick (holding "old" 900)))
      = _access_token (holding "old" 900)).
Proof.
  apply (failed_token_call_keeps_the_expiry (provider invalid_client ticking inbox)
           (holding "old" 900) (HTTPStatusError invalid_client)).
  reflexivity.
Defined.

(** X5: when the token document of a 2xx answer holds the token but an
    [expires_in] that is not a number, the call raises [TypeError] after
    line 65 has run: the new token is cached while the expiry keeps its
    previous value. *)
Theorem non_numeric_lifetime_caches_the_token_alone
    env w w1 resp fields tok :
  cached_token env w = (Return None, w1) ->
  missing_credentials env = false ->
  transport env (wire w) (token_request env) = Reply resp ->
  is_success resp = true ->
  json resp = Some (JObj fields) ->
  lookup "access_token" fields = Some (JStr tok) ->
  granted fields = None ->
  exists w',
    get_access_token env w = (Raise TypeError, w')
    /\ _access_token w' = Some tok
    /\ _token_expiry w' = _token_expiry w
    /\ wire w' = (wire w ++ [token_request env])%list.
Proof.
  intros Htest Hc Hnet Hok Hjson Htok Hlife.
  destruct (cached_token_frame env w None w1 Htest) as (Hwire & Ha & He).
  rewrite (get_access_token_miss env w w1 Htest).
  rewrite <- Hwire in Hnet.
  unfold exchange_token. rewrite Hc. unfold_py.
  rewrite Hnet, Hok, Hjson. simpl. rewrite Htok. simpl.
  unfold granted in Hlife.
  destruct (lookup "expires_in" fields) as [[ | b | n | s | l | o]|];
    try discriminate Hlife; simpl;
    (eexists; split; [reflexivity|]; simpl; rewrite He, Hwire; auto).
Qed.

Lemma non_numeric_lifetime_caches_the_token_alone_witness :
  exists w',
    get_access_token (provider (quoted_lifetime "new") ticking inbox)
      (holding "old" 900)
    = (Raise TypeError, w')
    /\ _access_token w' = Some "new"
    /\ _token_expiry w' = _token_expiry (holding "old" 900)
    /\ wire w'
       = (wire (holding "old" 900)
          ++ [token_request (provider (quoted_lifetime "new") ticking inbox)])%list.
Proof.
  apply (non_numeric_lifetime_caches_the_token_alone
           (provider (quoted_lifetime "new") ticking inbox)
           (holding "old" 900) (tick (holding "old" 900)) (quoted_lifetime "new")
           [("access_token", JStr "new"); ("expires_in", JStr "3600")] "new").
  - reflexivity.
  - reflexivity.
  - reflexivity.
  - reflexivity.
  - reflexivity.
  - reflexivity.
  - reflexivity.
Defined.

(** X6: a Graph call that fails below HTTP (a timeout, a refused
    connection) leaves the dispatcher as the transport error itself: the
    [except] clause of line 99 does not rewrite it.  The request has gone
    out once and the globals are as the token stage left them. *)
Theorem transport_failure_passes_through
    env w tok w1 method endpoint data query req msg :
  get_access_token env w = (Return tok, w1) ->
  issued method (GRAPH_BASE_URL ++ endpoint) (graph_headers tok) data query = Some req ->
  transport env (wire w1) req = Broken msg ->
  make_graph_request env method endpoint data query w
  = (Raise (TransportError msg), logged req w1).
Proof.
  intros Htok Hreq Hnet.
  rewrite (make_graph_request_token_return env w tok w1 _ _ _ _ Htok).
  apply guarded_dispatch_broken; assumption.
Qed.

Lemma transport_failure_passes_through_witness :
  make_graph_request (unreachable_mailbox "new" ticking)
    "GET" "/me/messages" None None (holding "abc" 5000)
  = (Raise (TransportError "timed out"),
     logged (graph_get (GRAPH_BASE_URL ++ "/me/messages") (graph_headers "abc") None)
       (tick (holding "abc" 5000))).
Proof.
  apply (transport_failure_passes_through (unreachable_mailbox "new" ticking)
           (holding "abc" 5000) "abc" (tick (holding "abc" 5000))
           "GET" "/me/messages" None None
           (graph_get (GRAPH_BASE_URL ++ "/me/messages") (graph_headers "abc") None)
           "timed out").
  - reflexivity.
  - reflexivity.
  - reflexivity.
Defined.

(** X7: a token exchange that fails below HTTP raises the transport
    error, leaves both globals as they were, and the dispatcher then sends
    no Graph request. *)
Theorem broken_exchange_stops_the_dispatcher
    env w w1 msg method endpoint data query :
  cached_token env w = (Return None, w1) ->
  missing_credentials env = false ->
  transport env (wire w) (token_request env) = Broken msg ->
  get_access_token env w
  = (Raise (TransportError msg), logged (token_request env) w1)
  /\ make_graph_request env method endpoint data query w
     = (Raise (TransportError msg), logged (token_request env) w1)
  /\ _access_token (logged (token_request env) w1) = _access_token w
  /\ _token_expiry (logged (token_request env) w1) = _token_expiry w
  /\ wire (logged (token_request env) w1) = (wire w ++ [token_request env])%list.
Proof.
  intros Htest Hc Hnet.
  destruct (cached_token_frame env w None w1 Htest) as (Hwire & Ha & He).
  assert (Hrun : get_access_token env w
                 = (Raise (TransportError msg), logged (token_request env) w1)).
  { rewrite (get_access_token_miss env w w1 Htest).
    rewrite <- Hwire in Hnet.
    unfold exchange_token. rewrite Hc. unfold_py. rewrite Hnet. reflexivity. }
  split; [exact Hrun|].
  split; [apply make_graph_request_token_raise, Hrun|].
  simpl. rewrite Hwire. auto.
Qed.

Lemma broken_exchange_stops_the_dispatcher_witness :
  get_access_token (offline ticking) initial
  = (Raise (TransportError "timed out"),
     logged (token_request (offline ticking)) initial)
  /\ make_graph_request (offline ticking) "GET" "/me/messages" None None initial
     = (Raise (TransportError "timed out"),
        logged (token_request (offline ticking)) initial)
  /\ _access_token (logged (token_request (offline ticking)) initial)
     = _access_token initial
  /\ _token_expiry (logged (token_request (offline ticking)) initial)
     = _token_expiry initial
  /\ wire (logged (token_request (offline ticking)) initial)
     = (wire initial ++ [token_request (offline ticking)])%list.
Proof.
  apply (broken_exchange_stops_the_dispatcher (offline ticking) initial initial
           "timed out" "GET" "/me/messages" None None).
  - reflexivity.
  - reflexivity.
  - reflexivity.
Defined.

(** X8: a token that a call has just returned is served from the cache
    by the next call, with nothing sent, as long as the token is not the
    empty string, the cached expiry is not zero and the clock is still
    strictly before the expiry. *)
Theorem returned_token_is_reused env w tok w1 e :
  get_access_token env w = (Return tok, w1) ->
  tok <> EmptyString ->
  _token_expiry w1 = Some e ->
  e <> 0 ->
  timestamp env (clock_reads w1) < e ->
  get_access_token env w1 = (Return tok, tick w1)
  /\ wire (tick w1) = wire w1.
Proof.
  intros Hrun Htok He Hne Hlt.
  split; [|reflexivity].
  apply get_access_token_hit.
  apply (cached_token_hit env w1 tok e); try assumption.
  apply (returned_token_is_cached env w tok w1 Hrun).
Qed.

Lemma returned_token_is_reused_witness :
  get_access_token (tenant "new" 3600 ticking inbox)
    (snd (get_access_token (tenant "new" 3600 ticking inbox) initial))
  = (Return "new",
     tick (snd (get_access_token (tenant "new" 3600 ticking inbox) initial)))
  /\ wire (tick (snd (get_access_token (tenant "new" 3600 ticking inbox) initial)))
     = wire (snd (get_access_token (tenant "new" 3600 ticking inbox) initial)).
Proof.
  apply (returned_token_is_reused (tenant "new" 3600 ticking inbox) initial
           "new" (snd (get_access_token (tenant "new" 3600 ticking inbox) initial))
           4540).
  - reflexivity.
  - discriminate.
  - reflexivity.
  - discriminate.
  - reflexivity.
Defined.



(** * Properties of the tool handlers *)

(** ** Stripping and splitting *)

Lemma lstrip_length s : (String.length (lstrip s) <= String.length s)%nat.
Proof.
  induction s as [|c s IH]; simpl.
  - lia.
  - destruct (is_space c); simpl; lia.
Qed.

(** What [lstrip] returns is empty or starts with a byte that is not
    white space. *)
Lemma lstrip_head s c rest :
  lstrip s = String c rest -> is_space c = false.
Proof.
  induction s as [|d s IH]; simpl.
  - discriminate.
  - destruct (is_space d) eqn:Hd.
    + exact IH.
    + intros H. injection H as <- _. exact Hd.
Qed.

Lemma lstrip_idempotent s : lstrip (lstrip s) = lstrip s.
Proof.
  induction s as [|c s IH]; simpl.
  - reflexivity.
  - destruct (is_space c) eqn:Hc.
    + exact IH.
    + simpl. rewrite Hc. reflexivity.
Qed.

Lemma rstrip_idempotent s : rstrip (rstrip s) = rstrip s.
Proof.
  induction s as [|c s IH]; simpl.
  - reflexivity.
  - destruct (rstrip s) as [|d kept] eqn:Hs.
    + destruct (is_space c) eqn:Hc; simpl.
      * reflexivity.
      * rewrite Hc. reflexivity.
    + change (rstrip (String c (String d kept))) with
        (match rstrip (String d kept) with
         | EmptyString => if is_space c then EmptyString else String c EmptyString
         | String e k => String c (String e k)
         end).
      rewrite IH. reflexivity.
Qed.

(** [rstrip] keeps the first byte of a string that does not start with
    white space. *)
Lemma rstrip_head c rest :
  is_space c = false ->
  exists kept, rstrip (String c rest) = String c kept.
Proof.
  intros Hc. simpl. destruct (rstrip rest) as [|d kept].
  - rewrite Hc. eauto.
  - eauto.
Qed.

Lemma strip_trimmed s : trimmed (strip s).
Proof.
  unfold trimmed, strip. split.
  - destruct (lstrip s) as [|c rest] eqn:Hs.
    + reflexivity.
    + pose proof (lstrip_head s c rest Hs) as Hc.
      destruct (rstrip_head c rest Hc) as (kept & ->).
      simpl. rewrite Hc. reflexivity.
  - apply rstrip_idempotent.
Qed.

Lemma lstrip_occurs c s : occurs c (lstrip s) = true -> occurs c s = true.
Proof.
  induction s as [|d s IH]; simpl.
  - auto.
  - destruct (is_space d); simpl.
    + intros H. rewrite (IH H). apply orb_true_r.
    + auto.
Qed.

Lemma rstrip_occurs c s : occurs c (rstrip s) = true -> occurs c s = true.
Proof.
  induction s as [|d s IH]; simpl.
  - auto.
  - destruct (rstrip s) as [|e kept].
    + destruct (is_space d); simpl.
      * discriminate.
      * rewrite orb_false_r. intros ->. reflexivity.
    + simpl. simpl in IH.
      destruct (Ascii.eqb d c); simpl; [reflexivity|]. exact IH.
Qed.

Lemma strip_occurs c s : occurs c (strip s) = true -> occurs c s = true.
Proof.
  unfold strip. intros H. apply lstrip_occurs, rstrip_occurs, H.
Qed.

Lemma split_nonempty sep s : split sep s <> [].
Proof.
  destruct s as [|c s]; simpl.
  - discriminate.
  - destruct (Ascii.eqb c sep); [discriminate|].
    destruct (split sep s); discriminate.
Qed.

(** No piece holds the separator. *)
Lemma split_pieces sep s piece :
  In piece (split sep s) -> occurs sep piece = false.
Proof.
  revert piece. induction s as [|c s IH]; simpl; intros piece Hin.
  - destruct Hin as [<-|[]]. reflexivity.
  - destruct (Ascii.eqb c sep) eqn:Hc.
    + destruct Hin as [<-|Hin]; [reflexivity | apply IH, Hin].
    + destruct (split sep s) as [|p ps].
      * destruct Hin as [<-|[]]. simpl. rewrite Hc. reflexivity.
      * destruct Hin as [<-|Hin].
        -- simpl. rewrite Hc. apply IH. left. reflexivity.
        -- apply IH. right. exact Hin.
Qed.

(** Splitting at the separator that joins two strings splits each. *)
Lemma split_join sep a b :
  split sep (a ++ String sep b) = (split sep a ++ split sep b)%list.
Proof.
  induction a as [|c a IH]; simpl.
  - rewrite Ascii.eqb_refl. reflexivity.
  - destruct (Ascii.eqb c sep).
    + rewrite IH. reflexivity.
    + rewrite IH. pose proof (split_nonempty sep a) as Hne.
      destruct (split sep a) as [|p ps]; [contradiction|]. reflexivity.
Qed.

(** X10: every recipient the handlers build holds one address, which is
    not empty, has no white space at either end and holds no comma. *)
Theorem recipients_are_clean value r :
  In r (recipients value) ->
  exists addr,
    r = JObj [("emailAddress", JObj [("address", JStr addr)])]
    /\ addr <> EmptyString
    /\ trimmed addr
    /\ occurs "," addr = false.
Proof.
  unfold recipients. intros Hin.
  apply in_map_iff in Hin. destruct Hin as (piece & <- & Hin).
  apply filter_In in Hin. destruct Hin as (Hpiece & Hkept).
  exists (strip piece). split; [reflexivity|]. split; [|split].
  - unfold blank in Hkept. intros Hempty. rewrite Hempty in Hkept. discriminate.
  - apply strip_trimmed.
  - destruct (occurs "," (strip piece)) eqn:Hocc; [|reflexivity].
    apply strip_occurs in Hocc.
    rewrite (split_pieces "," value piece Hpiece) in Hocc. discriminate.
Qed.

Lemma recipients_are_clean_witness :
  exists addr,
    JObj [("emailAddress", JObj [("address", JStr "b@example.org")])]
    = JObj [("emailAddress", JObj [("address", JStr addr)])]
    /\ addr <> EmptyString
    /\ trimmed addr
    /\ occurs "," addr = false.
Proof.
  apply (recipients_are_clean "a@example.org, , b@example.org ").
  simpl. right. left. reflexivity.
Defined.

(** X11: the recipients of two lists joined by a comma are the
    recipients of the first followed by those of the second. *)
Theorem recipients_of_joined_lists a b :
  recipients (a ++ "," ++ b) = (recipients a ++ recipients b)%list.
Proof.
  unfold recipients.
  change ("," ++ b) with (String "," b).
  rewrite split_join, filter_app, map_app. reflexivity.
Qed.

(** ** The handlers *)

(** A handler that awaits the dispatcher and then answers [done]. *)
Lemma reporting_request env library_text method endpoint data query done w :
  reporting library_text
    (_ <- make_graph_request env method endpoint data query ;; ret done) w
  = (match fst (make_graph_request env method endpoint data query w) with
     | Return _ => Return done
     | Raise e => Return ("❌ Error: " ++ str_exn library_text e)
     end,
     snd (make_graph_request env method endpoint data query w)).
Proof.
  unfold reporting, try_except, bind, ret.
  destruct (make_graph_request env method endpoint data query w) as [[v|e] w'];
    reflexivity.
Qed.

(** The dispatcher after a successful token stage and a 2xx answer whose
    body is empty or decodes. *)
Lemma make_graph_request_accepted
    env w tok w1 method endpoint data query req resp :
  get_access_token env w = (Return tok, w1) ->
  issued method (GRAPH_BASE_URL ++ endpoint) (graph_headers tok) data query = Some req ->
  transport env (wire w1) req = Reply resp ->
  is_success resp = true ->
  (text resp = EmptyString \/ json resp <> None) ->
  exists v,
    make_graph_request env method endpoint data query w = (Return v, logged req w1).
Proof.
  intros Htok Hreq Hnet Hok Hbody.
  rewrite (make_graph_request_token_return env w tok w1 _ _ _ _ Htok).
  rewrite (guarded_dispatch_answered env _ _ _ _ _ w1 req resp Hreq Hnet), Hok.
  destruct (String.eqb_spec (text resp) EmptyString) as [Hempty|Hfull]; [eauto|].
  destruct Hbody as [Hempty|Hjson]; [contradiction|].
  unfold decoded. destruct (json resp) as [v|]; [eauto | contradiction].
Qed.

(** The dispatcher after a successful token stage and a 4xx or 5xx
    answer. *)
Lemma make_graph_request_rejected
    env w tok w1 method endpoint data query req resp :
  get_access_token env w = (Return tok, w1) ->
  issued method (GRAPH_BASE_URL ++ endpoint) (graph_headers tok) data query = Some req ->
  transport env (wire w1) req = Reply resp ->
  400 <= status_code resp <= 599 ->
  make_graph_request env method endpoint data query w
  = (Raise (Exception ("Graph API error " ++ str_of_int (status_code resp)
                       ++ ": " ++ text resp)), logged req w1).
Proof.
  intros Htok Hreq Hnet Hstatus.
  rewrite (make_graph_request_token_return env w tok w1 _ _ _ _ Htok).
  rewrite (guarded_dispatch_answered env _ _ _ _ _ w1 req resp Hreq Hnet).
  rewrite (client_error_is_not_success resp Hstatus). reflexivity.
Qed.

(** The state after a dispatcher call whose token stage returned and
    whose method has a branch. *)
Lemma graph_request_frame env w tok w1 method endpoint data query req :
  get_access_token env w = (Return tok, w1) ->
  issued method (GRAPH_BASE_URL ++ endpoint) (graph_headers tok) data query = Some req ->
  snd (make_graph_request env method endpoint data query w) = logged req w1.
Proof.
  intros Htok Hreq.
  rewrite (make_graph_request_token_return env w tok w1 _ _ _ _ Htok).
  pose proof (guarded_dispatch_world env method (GRAPH_BASE_URL ++ endpoint)
                (graph_headers tok) data query w1) as Hworld.
  rewrite Hreq in Hworld. exact Hworld.
Qed.

(** X13: a message id that is empty or all white space is refused by
    each of the seven handlers that take one, with the same text, before
    anything happens: no token is asked for, nothing is sent, the state is
    unchanged. *)
Theorem blank_message_id_is_refused env library_text w
    message_id to_recipients comment body reply_all :
  blank message_id = true ->
  send_draft env library_text message_id w
  = (Return "❌ Error: message_id is required", w)
  /\ forward_email env library_text message_id to_recipients comment w
     = (Return "❌ Error: message_id is required", w)
  /\ reply_email env library_text message_id body reply_all w
     = (Return "❌ Error: message_id is required", w)
  /\ delete_email env library_text message_id w
     = (Return "❌ Error: message_id is required", w)
  /\ permanent_delete_email env library_text message_id w
     = (Return "❌ Error: message_id is required", w)
  /\ mark_as_read env library_text message_id w
     = (Return "❌ Error: message_id is required", w)
  /\ mark_as_unread env library_text message_id w
     = (Return "❌ Error: message_id is required", w).
Proof.
  intros Hblank.
  unfold send_draft, forward_email, reply_email, delete_email,
    permanent_delete_email, mark_as_read, mark_as_unread.
  rewrite Hblank. repeat split; reflexivity.
Qed.

Lemma blank_message_id_is_refused_witness :
  send_draft (tenant "new" 3600 ticking inbox) terse "  " initial
  = (Return "❌ Error: message_id is required", initial)
  /\ forward_email (tenant "new" 3600 ticking inbox) terse "  " "a@example.org" "fyi"
       initial
     = (Return "❌ Error: message_id is required", initial)
  /\ reply_email (tenant "new" 3600 ticking inbox) terse "  " "thanks" "false" initial
     = (Return "❌ Error: message_id is required", initial)
  /\ delete_email (tenant "new" 3600 ticking inbox) terse "  " initial
     = (Return "❌ Error: message_id is required", initial)
  /\ permanent_delete_email (tenant "new" 3600 ticking inbox) terse "  " initial
     = (Return "❌ Error: message_id is required", initial)
  /\ mark_as_read (tenant "new" 3600 ticking inbox) terse "  " initial
     = (Return "❌ Error: message_id is required", initial)
  /\ mark_as_unread (tenant "new" 3600 ticking inbox) terse "  " initial
     = (Return "❌ Error: message_id is required", initial).
Proof.
  apply (blank_message_id_is_refused (tenant "new" 3600 ticking inbox) terse initial
           "  " "a@example.org" "fyi" "thanks" "false").
  reflexivity.
Defined.

(** X14: for ASCII arguments, [send_email] refuses, before anything
    happens, a recipient list that is empty or all white space, and then a
    mail whose subject and body are both empty or all white space. *)
Theorem send_email_checks_its_arguments env library_text w
    subject body body_type to_recipients cc_recipients bcc_recipients
    importance save_to_sent :
  ascii_only to_recipients = true ->
  ascii_only subject = true ->
  ascii_only body = true ->
  (blank to_recipients = true ->
   send_email env library_text subject body body_type to_recipients
     cc_recipients bcc_recipients importance save_to_sent w
   = (Return "❌ Error: At least one recipient is required", w))
  /\ (blank to_recipients = false ->
      blank subject = true ->
      blank body = true ->
      send_email env library_text subject body body_type to_recipients
        cc_recipients bcc_recipients importance save_to_sent w
      = (Return "❌ Error: Subject or body is required", w)).
Proof.
  intros _ _ _. unfold send_email. split.
  - intros ->. reflexivity.
  - intros -> -> ->. reflexivity.
Qed.

Lemma send_email_checks_its_arguments_witness :
  (blank "a@example.org" = true ->
   send_email (tenant "new" 3600 ticking inbox) terse " " EmptyString "text"
     "a@example.org" EmptyString EmptyString "normal" "true" initial
   = (Return "❌ Error: At least one recipient is required", initial))
  /\ (blank "a@example.org" = false ->
      blank " " = true ->
      blank EmptyString = true ->
      send_email (tenant "new" 3600 ticking inbox) terse " " EmptyString "text"
        "a@example.org" EmptyString EmptyString "normal" "true" initial
      = (Return "❌ Error: Subject or body is required", initial)).
Proof.
  apply (send_email_checks_its_arguments (tenant "new" 3600 ticking inbox) terse
           initial " " EmptyString "text" "a@example.org" EmptyString EmptyString
           "normal" "true").
  - reflexivity.
  - reflexivity.
  - reflexivity.
Defined.

(** A mail to nobody, and a mail of white space. *)
Example send_email_refusals :
  send_email (tenant "new" 3600 ticking inbox) terse "hello" "body" "text"
    "  " EmptyString EmptyString "normal" "true" initial
  = (Return "❌ Error: At least one recipient is required", initial)
  /\ send_email (tenant "new" 3600 ticking inbox) terse " " EmptyString "text"
       "a@example.org" EmptyString EmptyString "normal" "true" initial
     = (Return "❌ Error: Subject or body is required", initial).
Proof. split; reflexivity. Qed.

(** X15: what [delete_email] tells its caller.  With an ASCII message id
    that is not blank and a token stage that returns, the handler sends one DELETE
    for the message, without body and without parameters; a 4xx or 5xx
    answer comes back as the error text holding the status and the body as
    received, and a 2xx answer with an empty body as the success text
    holding the message id. *)
Theorem delete_email_reports_the_answer
    env library_text w tok w1 message_id resp :
  ascii_only message_id = true ->
  blank message_id = false ->
  get_access_token env w = (Return tok, w1) ->
  transport env (wire w1)
    (graph_delete (GRAPH_BASE_URL ++ "/me/messages/" ++ message_id) (graph_headers tok))
  = Reply resp ->
  snd (delete_email env library_text message_id w)
  = logged (graph_delete (GRAPH_BASE_URL ++ "/me/messages/" ++ message_id)
              (graph_headers tok)) w1
  /\ (400 <= status_code resp <= 599 ->
      fst (delete_email env library_text message_id w)
      = Return ("❌ Error: Graph API error " ++ str_of_int (status_code resp)
                ++ ": " ++ text resp))
  /\ (is_success resp = true ->
      text resp = EmptyString ->
      fst (delete_email env library_text message_id w)
      = Return ("✅ Email deleted successfully!" ++ nl ++ nl
                ++ "📧 Message ID: " ++ message_id)).
Proof.
  intros _ Hid Htok Hnet.
  unfold delete_email. rewrite Hid, reporting_request.
  assert (Hreq : issued "DELETE" (GRAPH_BASE_URL ++ "/me/messages/" ++ message_id)
                   (graph_headers tok) None None
                 = Some (graph_delete (GRAPH_BASE_URL ++ "/me/messages/" ++ message_id)
                           (graph_headers tok))) by reflexivity.
  split; [|split].
  - pose proof (graph_request_frame env w tok w1 "DELETE"
                  ("/me/messages/" ++ message_id) None None _ Htok Hreq) as ->.
    reflexivity.
  - intros Hstatus.
    rewrite (make_graph_request_rejected env w tok w1 _ _ _ _ _ resp
               Htok Hreq Hnet Hstatus).
    reflexivity.
  - intros Hok Hempty.
    destruct (make_graph_request_accepted env w tok w1 _ _ _ _ _ resp
                Htok Hreq Hnet Hok (or_introl Hempty)) as (v & ->).
    reflexivity.
Qed.

Lemma delete_email_reports_the_answer_witness :
  snd (delete_email (tenant "new" 3600 ticking access_denied) terse "42"
         (holding "abc" 5000))
  = logged (graph_delete (GRAPH_BASE_URL ++ "/me/messages/" ++ "42")
              (graph_headers "abc")) (tick (holding "abc" 5000))
  /\ (400 <= status_code access_denied <= 599 ->
      fst (delete_email (tenant "new" 3600 ticking access_denied) terse "42"
             (holding "abc" 5000))
      = Return ("❌ Error: Graph API error " ++ str_of_int (status_code access_denied)
                ++ ": " ++ text access_denied))
  /\ (is_success access_denied = true ->
      text access_denied = EmptyString ->
      fst (delete_email (tenant "new" 3600 ticking access_denied) terse "42"
             (holding "abc" 5000))
      = Return ("✅ Email deleted successfully!" ++ nl ++ nl
                ++ "📧 Message ID: " ++ "42")).
Proof.
  apply (delete_email_reports_the_answer (tenant "new" 3600 ticking access_denied)
           terse (holding "abc" 5000) "abc" (tick (holding "abc" 5000)) "42"
           access_denied).
  - reflexivity.
  - reflexivity.
  - reflexivity.
  - reflexivity.
Defined.

(** The same handler against a mailbox that accepts the deletion. *)
Example delete_email_succeeds :
  fst (delete_email (tenant "new" 3600 ticking no_content) terse "42"
         (holding "abc" 5000))
  = Return ("✅ Email deleted successfully!" ++ nl ++ nl ++ "📧 Message ID: 42").
Proof. reflexivity. Qed.

(** X16: [mark_as_read] and [mark_as_unread] differ in one bit.  With an
    ASCII message id that is not blank and a token stage that returns, each
    sends one PATCH for the message whose JSON body is the object with the
    single key isRead, true for the first and false for the second, and
    no parameters. *)
Theorem marking_sends_the_read_flag env library_text w tok w1 message_id :
  ascii_only message_id = true ->
  blank message_id = false ->
  get_access_token env w = (Return tok, w1) ->
  snd (mark_as_read env library_text message_id w)
  = logged (graph_patch (GRAPH_BASE_URL ++ "/me/messages/" ++ message_id)
              (graph_headers tok) (Some (JObj [("isRead", JBool true)])) None) w1
  /\ snd (mark_as_unread env library_text message_id w)
     = logged (graph_patch (GRAPH_BASE_URL ++ "/me/messages/" ++ message_id)
                 (graph_headers tok) (Some (JObj [("isRead", JBool false)])) None) w1.
Proof.
  intros _ Hid Htok.
  unfold mark_as_read, mark_as_unread. rewrite Hid, !reporting_request.
  split.
  - apply (graph_request_frame env w tok w1 "PATCH"); [exact Htok | reflexivity].
  - apply (graph_request_frame env w tok w1 "PATCH"); [exact Htok | reflexivity].
Qed.

Lemma marking_sends_the_read_flag_witness :
  snd (mark_as_read (tenant "new" 3600 ticking inbox) terse "42" (holding "abc" 5000))
  = logged (graph_patch (GRAPH_BASE_URL ++ "/me/messages/" ++ "42")
              (graph_headers "abc") (Some (JObj [("isRead", JBool true)])) None)
      (tick (holding "abc" 5000))
  /\ snd (mark_as_unread (tenant "new" 3600 ticking inbox) terse "42"
            (holding "abc" 5000))
     = logged (graph_patch (GRAPH_BASE_URL ++ "/me/messages/" ++ "42")
                 (graph_headers "abc") (Some (JObj [("isRead", JBool false)])) None)
         (tick (holding "abc" 5000)).
Proof.
  apply (marking_sends_the_read_flag (tenant "new" 3600 ticking inbox) terse
           (holding "abc" 5000) "abc" (tick (holding "abc" 5000)) "42").
  - reflexivity.
  - reflexivity.
  - reflexivity.
Defined.

(** X17: for ASCII arguments, [reply_email] chooses its endpoint by
    [reply_all] alone, read without regard to case and without stripping:
    with a message id that is not blank the reply goes to
    [/replyAll] exactly when the lower-cased argument is [true], and to
    [/reply] otherwise.  The body is posted as a text message when it is
    not blank, and the empty object is posted when it is. *)
Theorem reply_email_chooses_the_endpoint
    env library_text w tok w1 message_id body reply_all :
  ascii_only message_id = true ->
  ascii_only body = true ->
  ascii_only reply_all = true ->
  blank message_id = false ->
  get_access_token env w = (Return tok, w1) ->
  snd (reply_email env library_text message_id body reply_all w)
  = logged
      (graph_post
         (GRAPH_BASE_URL ++ "/me/messages/" ++ message_id
          ++ (if String.eqb (lower reply_all) "true" then "/replyAll" else "/reply"))
         (graph_headers tok)
         (Some (JObj (if blank body then []
                      else [("message",
                             JObj [("body", JObj [("contentType", JStr "text");
                                                  ("content", JStr body)])])])))
         None) w1.
Proof.
  intros _ _ _ Hid Htok.
  unfold reply_email. rewrite Hid, reporting_request.
  destruct (String.eqb (lower reply_all) "true"); destruct (blank body);
    (apply (graph_request_frame env w tok w1 "POST"); [exact Htok | reflexivity]).
Qed.

Lemma reply_email_chooses_the_endpoint_witness :
  snd (reply_email (tenant "new" 3600 ticking inbox) terse "42" "thanks" "True"
         (holding "abc" 5000))
  = logged
      (graph_post
         (GRAPH_BASE_URL ++ "/me/messages/" ++ "42"
          ++ (if String.eqb (lower "True") "true" then "/replyAll" else "/reply"))
         (graph_headers "abc")
         (Some (JObj (if blank "thanks" then []
                      else [("message",
                             JObj [("body", JObj [("contentType", JStr "text");
                                                  ("content", JStr "thanks")])])])))
         None) (tick (holding "abc" 5000)).
Proof.
  apply (reply_email_chooses_the_endpoint (tenant "new" 3600 ticking inbox) terse
           (holding "abc" 5000) "abc" (tick (holding "abc" 5000))
           "42" "thanks" "True").
  - reflexivity.
  - reflexivity.
  - reflexivity.
  - reflexivity.
  - reflexivity.
Defined.

(** The argument is not stripped: a padded [true] replies to the sender
    only. *)
Example padded_true_is_a_plain_reply :
  map url (wire (snd (reply_email (tenant "new" 3600 ticking inbox) terse
                        "42" "thanks" " true" (holding "abc" 5000))))
  = ["https://graph.microsoft.com/v1.0/me/messages/42/reply"].
Proof. reflexivity. Qed.

(** X18: the recipient check of [send_email] looks at the whole
    argument, not at the addresses in it: for ASCII arguments, when the
    recipient argument is not blank
    but every piece between its commas is, the mail is posted all the
    same, with an empty list of recipients. *)
Theorem send_email_posts_without_recipients
    env library_text w tok w1 subject body body_type to_recipients
    importance save_to_sent :
  ascii_only to_recipients = true ->
  ascii_only subject = true ->
  ascii_only body = true ->
  ascii_only body_type = true ->
  ascii_only save_to_sent = true ->
  blank to_recipients = false ->
  recipients to_recipients = [] ->
  blank subject && blank body = false ->
  get_access_token env w = (Return tok, w1) ->
  snd (send_email env library_text subject body body_type to_recipients
         EmptyString EmptyString importance save_to_sent w)
  = logged
      (graph_post (GRAPH_BASE_URL ++ "/me/sendMail") (graph_headers tok)
         (Some (JObj [("message",
                       JObj [("subject", JStr subject);
                             ("importance", JStr importance);
                             ("saveToSentItems",
                              JBool (String.eqb (lower save_to_sent) "true"));
                             ("body", JObj [("contentType", JStr (lower body_type));
                                            ("content", JStr body)]);
                             ("toRecipients", JArr [])])]))
         None) w1.
Proof.
  intros _ _ _ _ _ Hto Hnone Hcontent Htok.
  unfold send_email. rewrite Hto, Hcontent, reporting_request.
  unfold add_recipients. rewrite Hto, Hnone. simpl.
  apply (graph_request_frame env w tok w1 "POST"); [exact Htok | reflexivity].
Qed.

Lemma send_email_posts_without_recipients_witness :
  snd (send_email (tenant "new" 3600 ticking inbox) terse "hello" EmptyString "text" " , ,"
         EmptyString EmptyString "normal" "true" (holding "abc" 5000))
  = logged
      (graph_post (GRAPH_BASE_URL ++ "/me/sendMail") (graph_headers "abc")
         (Some (JObj [("message",
                       JObj [("subject", JStr "hello");
                             ("importance", JStr "normal");
                             ("saveToSentItems",
                              JBool (String.eqb (lower "true") "true"));
                             ("body", JObj [("contentType", JStr (lower "text"));
                                            ("content", JStr EmptyString)]);
                             ("toRecipients", JArr [])])]))
         None) (tick (holding "abc" 5000)).
Proof.
  apply (send_email_posts_without_recipients (tenant "new" 3600 ticking inbox) terse
           (holding "abc" 5000) "abc" (tick (holding "abc" 5000))
           "hello" EmptyString "text" " , ," "normal" "true").
  - reflexivity.
  - reflexivity.
  - reflexivity.
  - reflexivity.
  - reflexivity.
  - reflexivity.
  - reflexivity.
  - reflexivity.
  - reflexivity.
Defined.

(** X19: a process started without one of its credentials answers every
    call of these handlers with an ASCII, non-blank message id with the
    missing-credentials text, and never sends anything: the state stays
    the state after import. *)
Theorem unconfigured_handlers_say_so env library_text w message_id body reply_all :
  reachable env w ->
  (TENANT_ID env = EmptyString \/ CLIENT_ID env = EmptyString
   \/ CLIENT_SECRET env = EmptyString) ->
  ascii_only message_id = true ->
  blank message_id = false ->
  w = initial
  /\ send_draft env library_text message_id w
     = (Return ("❌ Error: "
                ++ "Missing required credentials: TENANT_ID, CLIENT_ID, CLIENT_SECRET"),
        initial)
  /\ reply_email env library_text message_id body reply_all w
     = (Return ("❌ Error: "
                ++ "Missing required credentials: TENANT_ID, CLIENT_ID, CLIENT_SECRET"),
        initial)
  /\ delete_email env library_text message_id w
     = (Return ("❌ Error: "
                ++ "Missing required credentials: TENANT_ID, CLIENT_ID, CLIENT_SECRET"),
        initial)
  /\ permanent_delete_email env library_text message_id w
     = (Return ("❌ Error: "
                ++ "Missing required credentials: TENANT_ID, CLIENT_ID, CLIENT_SECRET"),
        initial)
  /\ mark_as_read env library_text message_id w
     = (Return ("❌ Error: "
                ++ "Missing required credentials: TENANT_ID, CLIENT_ID, CLIENT_SECRET"),
        initial)
  /\ mark_as_unread env library_text message_id w
     = (Return ("❌ Error: "
                ++ "Missing required credentials: TENANT_ID, CLIENT_ID, CLIENT_SECRET"),
        initial).
Proof.
  intros Hreach Hempty _ Hid.
  apply missing_credentials_iff in Hempty.
  rewrite (unconfigured_stays_initial env w Hempty Hreach).
  assert (Htok : get_access_token env initial
                 = (Raise (Exception
                      "Missing required credentials: TENANT_ID, CLIENT_ID, CLIENT_SECRET"),
                    initial)).
  { rewrite (get_access_token_miss env initial initial) by reflexivity.
    apply exchange_token_unconfigured, Hempty. }
  assert (Hrun : forall method endpoint data query,
             make_graph_request env method endpoint data query initial
             = (Raise (Exception
                  "Missing required credentials: TENANT_ID, CLIENT_ID, CLIENT_SECRET"),
                initial)).
  { intros. apply make_graph_request_token_raise, Htok. }
  unfold send_draft, reply_email, delete_email, permanent_delete_email,
    mark_as_read, mark_as_unread.
  rewrite Hid, !reporting_request, !Hrun.
  repeat split; reflexivity.
Qed.

Lemma unconfigured_handlers_say_so_witness :
  initial = initial
  /\ send_draft (unconfigured ticking inbox) terse "42" initial
     = (Return ("❌ Error: "
                ++ "Missing required credentials: TENANT_ID, CLIENT_ID, CLIENT_SECRET"),
        initial)
  /\ reply_email (unconfigured ticking inbox) terse "42" "thanks" "false" initial
     = (Return ("❌ Error: "
                ++ "Missing required credentials: TENANT_ID, CLIENT_ID, CLIENT_SECRET"),
        initial)
  /\ delete_email (unconfigured ticking inbox) terse "42" initial
     = (Return ("❌ Error: "
                ++ "Missing required credentials: TENANT_ID, CLIENT_ID, CLIENT_SECRET"),
        initial)
  /\ permanent_delete_email (unconfigured ticking inbox) terse "42" initial
     = (Return ("❌ Error: "
                ++ "Missing required credentials: TENANT_ID, CLIENT_ID, CLIENT_SECRET"),
        initial)
  /\ mark_as_read (unconfigured ticking inbox) terse "42" initial
     = (Return ("❌ Error: "
                ++ "Missing required credentials: TENANT_ID, CLIENT_ID, CLIENT_SECRET"),
        initial)
  /\ mark_as_unread (unconfigured ticking inbox) terse "42" initial
     = (Return ("❌ Error: "
                ++ "Missing required credentials: TENANT_ID, CLIENT_ID, CLIENT_SECRET"),
        initial).
Proof.
  apply (unconfigured_handlers_say_so (unconfigured ticking inbox) terse initial
           "42" "thanks" "false").
  - apply reach_initial.
  - right; right. reflexivity.
  - reflexivity.
  - reflexivity.
Defined.
